(** * Verification of the stats import tool's entry point and test harness

    The development embeds [simple/stats/main.py] and
    [simple/tests/stats/test_util.py].  Python values become Rocq data,
    exceptions become the [Raise] branch of [result], the file system and
    the process environment become finite maps that are passed explicitly.

    The first part holds the definitions: Python's results and text
    streams, the two source files function by function, and the libraries
    they call (freezegun, csv and pandas, sqlite3) as far as the calls
    need them.  The second part holds the properties, ordered by the
    function they are about. *)

From Stdlib Require Import Ascii String List ZArith Lia Bool.
From stdpp Require Import base option strings gmap list.

Local Open Scope string_scope.
Local Open Scope list_scope.

(** ** Python: exceptions and results *)

Module Py.

(** The exceptions the embedded code can raise.  [NotModelled] is not a
    Python exception: it marks an input on which a library's behaviour is
    outside this development. *)
Inductive exn : Type :=
| AssertionError (msg : option string)
| FileNotFoundError (path : string)
| OperationalError (msg : string)
| DatabaseError (msg : string)
| ValueError (msg : string)
| TypeError (msg : string)
| EmptyDataError (msg : string)
| ParserError (msg : string)
| RuntimeError (msg : string)
| UnicodeDecodeError
| NotModelled (what : string).

(** A call either returns a value or raises. *)
Inductive result (A : Type) : Type :=
| Ok (a : A)
| Raise (e : exn).
Arguments Ok {A} a.
Arguments Raise {A} e.

Definition bind {A B : Type} (r : result A) (k : A -> result B) : result B :=
  match r with
  | Ok a => k a
  | Raise e => Raise e
  end.

Definition raises {A : Type} (r : result A) : Prop :=
  match r with
  | Ok _ => False
  | Raise _ => True
  end.

(** [str(x)] for an optional string, as an f-string renders it. *)
Definition str_opt (o : option string) : string :=
  match o with
  | Some s => s
  | None => "None"
  end.

End Py.

#[global] Instance result_bind : MBind Py.result :=
  fun A B k r => Py.bind r k.
#[global] Instance result_ret : MRet Py.result := @Py.Ok.

(** ** Characters used by the text layers *)

Module Ch.

Definition LF : ascii := "010"%char.
Definition CR : ascii := "013"%char.
Definition dquote : ascii := "034"%char.
Definition squote : ascii := "039"%char.
Definition comma : ascii := ","%char.

Definition NUL : ascii := "000"%char.

Definition is_CR (c : ascii) : bool := Ascii.eqb c CR.
Definition is_LF (c : ascii) : bool := Ascii.eqb c LF.
Definition is_NUL (c : ascii) : bool := Ascii.eqb c NUL.

End Ch.

(** ** The file system, and text-mode reading and writing *)

Module Utf8.

Definition code (c : ascii) : N := N_of_ascii c.

Definition between (lo hi : N) (c : ascii) : bool :=
  (lo <=? code c)%N && (code c <=? hi)%N.

(** A continuation byte. *)
Definition continuation (c : ascii) : bool := between 128 191 c.

(** Whether the bytes are well-formed UTF-8, as Python's strict decoder
    takes them: no stray continuation byte, no truncated sequence, no
    overlong form, no surrogate, nothing above U+10FFFF. *)
Fixpoint valid (s : string) : bool :=
  match s with
  | EmptyString => true
  | String c rest =>
      if (code c <? 128)%N then valid rest
      else if between 194 223 c then
        match rest with
        | String c1 r => continuation c1 && valid r
        | _ => false
        end
      else if between 224 239 c then
        match rest with
        | String c1 (String c2 r) =>
            (if (code c =? 224)%N then between 160 191 c1
             else if (code c =? 237)%N then between 128 159 c1
             else continuation c1)
            && continuation c2 && valid r
        | _ => false
        end
      else if between 240 244 c then
        match rest with
        | String c1 (String c2 (String c3 r)) =>
            (if (code c =? 240)%N then between 144 191 c1
             else if (code c =? 244)%N then between 128 143 c1
             else continuation c1)
            && continuation c2 && continuation c3 && valid r
        | _ => false
        end
      else false
  end.

End Utf8.

Module FS.

(** A file system maps a path to the bytes of the file stored there. *)
Abbreviation fs := (gmap string string).

(** [os.path.exists]. *)
Definition path_exists (f : fs) (path : string) : bool :=
  match f !! path with
  | Some _ => true
  | None => false
  end.

(** What a text-mode stream opened with the default [newline=None] hands
    to its reader: each of the line endings CR LF, CR and LF is
    delivered as a single LF. *)
Fixpoint universal_newlines (s : string) : string :=
  match s with
  | EmptyString => EmptyString
  | String c rest =>
      if Ch.is_CR c then
        match rest with
        | String c' rest' =>
            if Ch.is_LF c' then String Ch.LF (universal_newlines rest')
            else String Ch.LF (universal_newlines rest)
        | EmptyString => String Ch.LF EmptyString
        end
      else String c (universal_newlines rest)
  end.

(** [with open(path) as f: f.read()].  The stream decodes the bytes
    with the default encoding, taken to be UTF-8, and raises on bytes
    that are not well-formed; the text it delivers is held here by its
    UTF-8 bytes, among which CR and LF stand for themselves only. *)
Definition read_text (f : fs) (path : string) : Py.result string :=
  match f !! path with
  | Some bytes =>
      if Utf8.valid bytes then Py.Ok (universal_newlines bytes)
      else Py.Raise Py.UnicodeDecodeError
  | None => Py.Raise (Py.FileNotFoundError path)
  end.

(** [with open(path, 'w') as f: f.write(text)]: the file is created or
    truncated; on a POSIX system the text is stored unchanged. *)
Definition write_text (f : fs) (path : string) (text : string) : fs :=
  <[path := text]> f.

End FS.

(** ** The golden-file comparison *)

Module Harness.

(** [unittest.TestCase.assertEqual] on booleans. *)
Definition assertEqual_bool (a b : bool) (msg : option string) : Py.result unit :=
  if Bool.eqb a b then Py.Ok tt else Py.Raise (Py.AssertionError msg).

(** [unittest.TestCase.assertEqual] on strings. *)
Definition assertEqual_str (a b : string) (msg : option string) : Py.result unit :=
  if String.eqb a b then Py.Ok tt else Py.Raise (Py.AssertionError msg).

Definition existence_message (message : option string) : string :=
  "Actual file existence does not match expected file existence: "
  +:+ Py.str_opt message.

(** [compare_files(test, actual_path, expected_path, message)]. *)
Definition compare_files (f : FS.fs) (actual_path expected_path : string)
    (message : option string) : Py.result unit :=
  let actual_file_exists := FS.path_exists f actual_path in
  let expected_file_exists := FS.path_exists f expected_path in
  assertEqual_bool actual_file_exists expected_file_exists
    (Some (existence_message message)) ;;
  if Bool.eqb expected_file_exists false then Py.Ok tt
  else
    got ← FS.read_text f actual_path ;
    want ← FS.read_text f expected_path ;
    assertEqual_str got want message.

(** The comparison passes. *)
Definition passes (r : Py.result unit) : Prop := r = Py.Ok tt.

End Harness.

(** ** The process environment and the harness's write-mode switch *)

Module Env.

(** [os.environ]: variable name to value. *)
Abbreviation environ := (gmap string string).

(** [os.getenv(key, default)]. *)
Definition getenv (e : environ) (key dflt : string) : string :=
  match e !! key with
  | Some v => v
  | None => dflt
  end.

End Env.

Module TestUtil.

(** The two module-level names of [test_util.py] that [is_write_mode]
    reads.  They are bound once, when the module body runs. *)
Record globals : Type := {
  _TEST_MODE : string;
  _WRITE_MODE : string
}.

(** Running the module body: [_TEST_MODE = os.getenv("TEST_MODE", "")] and
    [_WRITE_MODE = "write"]. *)
Definition module_body (e : Env.environ) : globals :=
  {| _TEST_MODE := Env.getenv e "TEST_MODE" "";
     _WRITE_MODE := "write" |}.

(** [is_write_mode()]. *)
Definition is_write_mode (g : globals) : bool :=
  String.eqb (_TEST_MODE g) (_WRITE_MODE g).

(** A process: its environment and, once [test_util] has been imported,
    the module's globals as cached in [sys.modules]. *)
Record process : Type := {
  environ : Env.environ;
  test_util : option globals
}.

(** What the rest of the process may do between calls. *)
Inductive action : Type :=
| Putenv (key value : string)
| Unsetenv (key : string)
| Import.

Definition step (p : process) (a : action) : process :=
  match a with
  | Putenv k v => {| environ := <[k := v]> (environ p); test_util := test_util p |}
  | Unsetenv k => {| environ := delete k (environ p); test_util := test_util p |}
  | Import =>
      match test_util p with
      | Some _ => p
      | None => {| environ := environ p;
                   test_util := Some (module_body (environ p)) |}
      end
  end.

Definition run (p : process) (acts : list action) : process :=
  fold_left step acts p.

(** A fresh process with environment [e]. *)
Definition start (e : Env.environ) : process :=
  {| environ := e; test_util := None |}.

(** Calling [test_util.is_write_mode()] in process [p]; [None] when the
    module has not been imported. *)
Definition call_is_write_mode (p : process) : option bool :=
  is_write_mode <$> test_util p.

End TestUtil.

(** ** Clocks: freezegun's process-wide override and gzip's time source *)

(** [freezegun.freeze_time] is library code, modelled by what its context
    manager does to the process: entering installs an override, leaving
    removes the innermost one. *)

Module Freezegun.

(** One active [freeze_time(time_to_freeze, ignore=...)]: the instant
    that the text was parsed to, and the ignore list that was given.
    Which calls freezegun answers with the instant and which with the
    real time is the library's matter and is not modelled. *)
Record freeze : Type := {
  time_to_freeze : string;
  ignore : list string
}.

(** The overrides in force, innermost first.  The empty stack is the real
    clock. *)
Abbreviation stack := (list freeze).

(** [__enter__]: the override is installed. *)
Definition start (fr : freeze) (st : stack) : stack := fr :: st.

(** [__exit__]: the innermost override is removed. *)
Definition stop (st : stack) : stack := tail st.

End Freezegun.

Module Proc.

(** The object bound to the name [time] inside the [gzip] module. *)
Inductive gzip_time_binding : Type :=
| TimeModule
| FakeGzipTime (timestamp : Z).

(** The collaborators' calls that [main] makes, in order. *)
Record runner_args : Type := {
  config_file_path : option string;
  input_dir_path : string;
  output_dir_path : string;
  run_mode : string
}.

Inductive event : Type :=
| LoggingInfo (format arg : string)
| InitializeLogger
| RunnerInit (args : runner_args)
| RunnerRun (args : runner_args) (clock : Freezegun.stack).

(** The process-wide state the two files touch. *)
Record state : Type := {
  freezes : Freezegun.stack;
  gzip_time : gzip_time_binding;
  trace : list event
}.

Definition set_freezes (st : Freezegun.stack) (p : state) : state :=
  {| freezes := st; gzip_time := gzip_time p; trace := trace p |}.

Definition set_gzip_time (b : gzip_time_binding) (p : state) : state :=
  {| freezes := freezes p; gzip_time := b; trace := trace p |}.

Definition emit (ev : event) (p : state) : state :=
  {| freezes := freezes p; gzip_time := gzip_time p; trace := trace p ++ [ev] |}.

(** A freshly started process: real clocks, nothing called yet. *)
Definition initial : state :=
  {| freezes := []; gzip_time := TimeModule; trace := [] |}.

(** A computation that reads and updates the process state and may raise. *)
Definition M (A : Type) : Type := state -> Py.result A * state.

Definition ret {A : Type} (a : A) : M A := fun p => (Py.Ok a, p).

Definition bind {A B : Type} (m : M A) (k : A -> M B) : M B :=
  fun p =>
    match m p with
    | (Py.Ok a, p') => k a p'
    | (Py.Raise e, p') => (Py.Raise e, p')
    end.

(** Python's [with cm: body] for a context manager whose [__exit__] does
    not swallow exceptions: [__exit__] runs whether [body] returns or
    raises, and the outcome of [body] is the outcome of the statement. *)
Definition with_ {A : Type} (enter exit_ : state -> state) (body : M A) : M A :=
  fun p =>
    let (r, p') := body (enter p) in
    (r, exit_ p').

(** What [gzip] reads from its [time] name when it stamps a member:
    [time.time()] of the time module, under the overrides in force (none
    is the real clock), or the timestamp of a [FakeGzipTime]. *)
Inductive gzip_reading : Type :=
| FromTimeModule (overrides : Freezegun.stack)
| Fixed (timestamp : Z).

Definition gzip_now (p : state) : gzip_reading :=
  match gzip_time p with
  | TimeModule => FromTimeModule (freezes p)
  | FakeGzipTime ts => Fixed ts
  end.

End Proc.

#[global] Instance proc_bind : MBind Proc.M := fun A B k m => Proc.bind m k.
#[global] Instance proc_ret : MRet Proc.M := @Proc.ret.

(** ** main.py *)

Module Main.

(** The values of the command-line flags. *)
Record flags : Type := {
  config_file : option string;
  input_dir : string;
  output_dir : string;
  mode : string;
  freeze_time : bool;
  frozen_time : string
}.

Definition _FREEZE_TIME_IGNORE_LIST : list string := ["transformers"].

(** The code that [main] calls and that is not part of these two
    files.  Each call returns or raises. *)
Record collaborators : Type := {
  (** The parser to which [freeze_time] hands the text of an instant
      (dateutil's): the instant, or the exception. *)
  parse_time : string -> Py.result string;
  (** [initialize_logger()]. *)
  logger : Py.result unit;
  (** The constructor of [Runner], given its four arguments. *)
  runner_init : Proc.runner_args -> Py.result unit;
  (** [Runner.run], given the constructor's arguments and the clock
      overrides in force when it is called. *)
  runner_run : Proc.runner_args -> Freezegun.stack -> Py.result unit
}.

Section WithCollaborators.

Variable c : collaborators.

(** [initialize_logger()]. *)
Definition initialize_logger : Proc.M unit :=
  fun p => (logger c, Proc.emit Proc.InitializeLogger p).

(** [logging.info(format, arg)]. *)
Definition logging_info (format arg : string) : Proc.M unit :=
  fun p => (Py.Ok tt, Proc.emit (Proc.LoggingInfo format arg) p).

(** [Runner(config_file_path=..., input_dir_path=..., output_dir_path=...,
    mode=...)]. *)
Definition Runner (config_file_path : option string)
    (input_dir_path output_dir_path run_mode : string) : Proc.M Proc.runner_args :=
  fun p =>
    let args := {| Proc.config_file_path := config_file_path;
                   Proc.input_dir_path := input_dir_path;
                   Proc.output_dir_path := output_dir_path;
                   Proc.run_mode := run_mode |} in
    (runner_init c args ;; Py.Ok args, Proc.emit (Proc.RunnerInit args) p).

(** [runner.run()]. *)
Definition Runner_run (args : Proc.runner_args) : Proc.M unit :=
  fun p =>
    (runner_run c args (Proc.freezes p),
     Proc.emit (Proc.RunnerRun args (Proc.freezes p)) p).

(** [freeze_time(time_to_freeze, ignore=ignore_list)]: the text is parsed
    when the object is made, and the call raises when it does not
    parse. *)
Definition freeze_time_object (time_to_freeze : string) (ignore_list : list string)
    : Proc.M Freezegun.freeze :=
  fun p =>
    (instant ← parse_time c time_to_freeze ;
     Py.Ok {| Freezegun.time_to_freeze := instant;
              Freezegun.ignore := ignore_list |},
     p).

(** [with freeze_time(time_to_freeze, ignore=ignore_list): body]. *)
Definition with_freeze_time {A : Type} (time_to_freeze : string)
    (ignore_list : list string) (body : Proc.M A) : Proc.M A :=
  fr ← freeze_time_object time_to_freeze ignore_list ;
  Proc.with_
    (fun p => Proc.set_freezes (Freezegun.start fr (Proc.freezes p)) p)
    (fun p => Proc.set_freezes (Freezegun.stop (Proc.freezes p)) p)
    body.

(** [_run()]. *)
Definition _run (FLAGS : flags) : Proc.M unit :=
  initialize_logger ;;
  runner ← Runner (config_file FLAGS) (input_dir FLAGS) (output_dir FLAGS)
             (mode FLAGS) ;
  Runner_run runner.

(** [main(_)]. *)
Definition main (FLAGS : flags) : Proc.M unit :=
  if freeze_time FLAGS then
    logging_info "Running with time frozen at: %s" (frozen_time FLAGS) ;;
    with_freeze_time (frozen_time FLAGS) _FREEZE_TIME_IGNORE_LIST (_run FLAGS)
  else
    _run FLAGS.

End WithCollaborators.

End Main.

(** ** The gzip time override of the test harness *)

Module GzipTime.

(** [use_fake_gzip_time(timestamp)]: [gzip.time = FakeGzipTime(timestamp)]. *)
Definition use_fake_gzip_time (timestamp : Z) (p : Proc.state) : Proc.state :=
  Proc.set_gzip_time (Proc.FakeGzipTime timestamp) p.

End GzipTime.

(** ** Strings *)

Module Str.

Definition snoc (s : string) (c : ascii) : string := s +:+ String c EmptyString.

(** [s.startswith(p)], returning what follows the prefix. *)
Fixpoint strip_prefix (p s : string) : option string :=
  match p with
  | EmptyString => Some s
  | String c p' =>
      match s with
      | String d s' => if Ascii.eqb c d then strip_prefix p' s' else None
      | EmptyString => None
      end
  end.

Fixpoint contains_char (P : ascii -> bool) (s : string) : bool :=
  match s with
  | EmptyString => false
  | String c s' => P c || contains_char P s'
  end.

(** Every occurrence of [q] written twice. *)
Fixpoint double_char (q : ascii) (s : string) : string :=
  match s with
  | EmptyString => EmptyString
  | String c s' =>
      if Ascii.eqb c q then String q (String q (double_char q s'))
      else String c (double_char q s')
  end.

Definition is_space (c : ascii) : bool :=
  Ascii.eqb c " "%char || Ascii.eqb c "009"%char || Ascii.eqb c Ch.LF
  || Ascii.eqb c Ch.CR || Ascii.eqb c "012"%char.

Fixpoint lstrip (s : string) : string :=
  match s with
  | EmptyString => EmptyString
  | String c s' => if is_space c then lstrip s' else s
  end.

(** [s] without its trailing white space. *)
Fixpoint rstrip (s : string) : string :=
  match s with
  | EmptyString => EmptyString
  | String c s' =>
      match rstrip s' with
      | EmptyString => if is_space c then EmptyString else String c EmptyString
      | t => String c t
      end
  end.

Definition strip (s : string) : string := rstrip (lstrip s).

Definition is_ident_char (c : ascii) : bool :=
  let n := nat_of_ascii c in
  (Nat.leb 48 n && Nat.leb n 57) || (Nat.leb 65 n && Nat.leb n 90)
  || (Nat.leb 97 n && Nat.leb n 122) || Nat.eqb n 95.

(** The longest run of identifier characters at the front of [s], and
    what follows it. *)
Fixpoint span_ident (s : string) : string * string :=
  match s with
  | EmptyString => (EmptyString, EmptyString)
  | String c s' =>
      if is_ident_char c then
        let (name, rest) := span_ident s' in (String c name, rest)
      else (EmptyString, s)
  end.

(** [sep.join(parts)]. *)
Definition join (sep : string) (parts : list string) : string :=
  String.concat sep parts.

End Str.

(** ** The csv writer and pandas' tokenizer *)

(** [to_csv] writes through Python's [csv.writer] with the default
    dialect (comma, double quote, QUOTE_MINIMAL, doubled quotes), and
    [read_csv] reads through pandas' C tokenizer.  Both are library code;
    this module follows their documented behaviour for the default
    options that the harness uses. *)

Module Csv.

Definition delimiter : ascii := Ch.comma.
Definition quotechar : ascii := Ch.dquote.

(** pandas hands [os.linesep] to [csv.writer]; on a POSIX system that is
    a single LF. *)
Definition lineterminator : string := String Ch.LF EmptyString.

(** QUOTE_MINIMAL: a field is quoted when it holds the delimiter, the
    quote character or a character of the line terminator. *)
Definition special (c : ascii) : bool :=
  Ascii.eqb c delimiter || Ascii.eqb c quotechar
  || Str.contains_char (Ascii.eqb c) lineterminator.

Definition quoted (field : string) : string :=
  String quotechar (Str.double_char quotechar field) +:+ String quotechar EmptyString.

Definition write_field (field : string) : string :=
  if Str.contains_char special field then quoted field else field.

(** [csv.writer(...).writerow(fields)].  A record of one empty field is
    written as a pair of quotes, so that it is not a blank line. *)
Definition writerow (fields : list string) : string :=
  match fields with
  | [EmptyString] => quoted EmptyString +:+ lineterminator
  | _ => Str.join (String delimiter EmptyString) (map write_field fields)
         +:+ lineterminator
  end.

Definition writerows (rows : list (list string)) : string :=
  String.concat EmptyString (map writerow rows).

(** The states of pandas' C tokenizer that the default dialect of
    [read_csv] reaches (no comment character, no escape character, blank
    lines skipped). *)
Inductive state : Type :=
| START_RECORD
| WHITESPACE_LINE
| START_FIELD
| IN_FIELD
| IN_QUOTED_FIELD
| QUOTE_IN_QUOTED_FIELD
| EAT_CRNL
| EAT_CRNL_NOP.

(** The tokenizer's buffers: the field being read, the fields of the
    current line, the lines read so far. *)
Record buffers : Type := {
  field : string;
  line : list string;
  lines : list (list string)
}.

Definition push (c : ascii) (b : buffers) : buffers :=
  {| field := Str.snoc (field b) c; line := line b; lines := lines b |}.

Definition end_field (b : buffers) : buffers :=
  {| field := EmptyString; line := line b ++ [field b]; lines := lines b |}.

Definition end_line (b : buffers) : buffers :=
  {| field := EmptyString; line := []; lines := lines b ++ [line b] |}.

Definition is_blank (c : ascii) : bool :=
  Ascii.eqb c " "%char || Ascii.eqb c "009"%char.

Definition step_in_field (b : buffers) (c : ascii) : state * buffers :=
  if Ch.is_LF c then (START_RECORD, end_line (end_field b))
  else if Ch.is_CR c then (EAT_CRNL, end_field b)
  else if Ascii.eqb c delimiter then (START_FIELD, end_field b)
  else (IN_FIELD, push c b).

Definition step_start_field (b : buffers) (c : ascii) : state * buffers :=
  if Ch.is_LF c then (START_RECORD, end_line (end_field b))
  else if Ch.is_CR c then (EAT_CRNL, end_field b)
  else if Ascii.eqb c quotechar then (IN_QUOTED_FIELD, b)
  else if Ascii.eqb c delimiter then (START_FIELD, end_field b)
  else (IN_FIELD, push c b).

Definition step_start_record (b : buffers) (c : ascii) : state * buffers :=
  if Ch.is_LF c then (START_RECORD, b)
  else if Ch.is_CR c then (EAT_CRNL_NOP, b)
  else if is_blank c then (WHITESPACE_LINE, push c b)
  else step_start_field b c.

Definition step (st : state) (b : buffers) (c : ascii) : state * buffers :=
  match st with
  | START_RECORD => step_start_record b c
  | WHITESPACE_LINE =>
      if Ch.is_LF c then
        (START_RECORD, {| field := EmptyString; line := line b; lines := lines b |})
      else if Ch.is_CR c then
        (EAT_CRNL_NOP, {| field := EmptyString; line := line b; lines := lines b |})
      else if is_blank c then (WHITESPACE_LINE, push c b)
      else step_in_field b c
  | START_FIELD => step_start_field b c
  | IN_FIELD => step_in_field b c
  | IN_QUOTED_FIELD =>
      if Ascii.eqb c quotechar then (QUOTE_IN_QUOTED_FIELD, b)
      else (IN_QUOTED_FIELD, push c b)
  | QUOTE_IN_QUOTED_FIELD =>
      if Ascii.eqb c quotechar then (IN_QUOTED_FIELD, push c b)
      else step_in_field b c
  | EAT_CRNL =>
      if Ch.is_LF c then (START_RECORD, end_line b)
      else step_start_record (end_line b) c
  | EAT_CRNL_NOP =>
      if Ch.is_LF c then (START_RECORD, b)
      else step_start_record b c
  end.

(** The end of the input. *)
Definition at_eof (st : state) (b : buffers) : Py.result (list (list string)) :=
  match st with
  | START_RECORD | WHITESPACE_LINE | EAT_CRNL_NOP => Py.Ok (lines b)
  | IN_QUOTED_FIELD => Py.Raise (Py.ParserError "EOF inside string")
  | START_FIELD | IN_FIELD | QUOTE_IN_QUOTED_FIELD =>
      Py.Ok (lines (end_line (end_field b)))
  | EAT_CRNL => Py.Ok (lines (end_line b))
  end.

Fixpoint run (st : state) (b : buffers) (s : string) : Py.result (list (list string)) :=
  match s with
  | EmptyString => at_eof st b
  | String c rest => let (st', b') := step st b c in run st' b' rest
  end.

(** The lines of a CSV text, each a list of fields. *)
Definition tokenize (text : string) : Py.result (list (list string)) :=
  run START_RECORD {| field := EmptyString; line := []; lines := [] |} text.

End Csv.

(** ** The record types of [stats.data] *)

Module Data.

(** Modelled from the spec: the [Triple] record of [stats.data], which is
    not among the files at hand.  The spec gives its fields as subject id,
    predicate, object id and object value, in this order.  The type of
    the field values is left open: Python does not check it. *)
Record Triple (V : Type) : Type := {
  subject_id : V;
  predicate : V;
  object_id : V;
  object_value : V
}.
Arguments subject_id {V} _.
Arguments predicate {V} _.
Arguments object_id {V} _.
Arguments object_value {V} _.

Definition TRIPLE_FIELD_NAMES : list string :=
  ["subject_id"; "predicate"; "object_id"; "object_value"].

(** The field values in field order. *)
Definition astuple {V : Type} (t : Triple V) : list V :=
  [subject_id t; predicate t; object_id t; object_value t].

(** [Triple] called with the row unpacked into positional arguments. *)
Definition Triple_positional {V : Type} (row : list V) : Py.result (Triple V) :=
  match row with
  | [s; p; o; v] =>
      Py.Ok {| subject_id := s; predicate := p; object_id := o; object_value := v |}
  | _ => Py.Raise (Py.TypeError "Triple.__init__(): wrong number of positional arguments")
  end.

Fixpoint lookup_key {V : Type} (kwargs : list (string * V)) (key : string) : option V :=
  match kwargs with
  | [] => None
  | (k, v) :: rest => if String.eqb k key then Some v else lookup_key rest key
  end.

(** [Triple] called with the record unpacked into keyword arguments. *)
Definition Triple_keywords {V : Type} (kwargs : list (string * V)) : Py.result (Triple V) :=
  if forallb (fun kv => existsb (String.eqb (fst kv)) TRIPLE_FIELD_NAMES) kwargs then
    match lookup_key kwargs "subject_id", lookup_key kwargs "predicate",
          lookup_key kwargs "object_id", lookup_key kwargs "object_value" with
    | Some s, Some p, Some o, Some v =>
        Py.Ok {| subject_id := s; predicate := p; object_id := o; object_value := v |}
    | _, _, _, _ => Py.Raise (Py.TypeError "Triple.__init__(): missing argument")
    end
  else Py.Raise (Py.TypeError "Triple.__init__(): unexpected keyword argument").

End Data.

(** ** pandas: data frames, [to_csv] and [read_csv] *)

(** Frames as the harness builds them: from the rows of a table with
    explicit column names, or from a list of [Triple] objects.  The cells
    are [None] or [str], which is what sqlite3 returns for NULL and text;
    numbers and their formatting are outside this development. *)

Module Pandas.

(** The values a frame holds here: [None] or a [str]. *)
Abbreviation cell := (option string).

Record DataFrame : Type := {
  columns : list string;
  data : list (list cell)
}.

(** [pd.DataFrame(rows, columns=names)] for a list of tuples.  Without
    rows the frame has the named columns and no data; with rows, their
    width must be the number of names. *)
Definition DataFrame_from_rows (rows : list (list cell)) (names : list string)
    : Py.result DataFrame :=
  match rows with
  | [] => Py.Ok {| columns := names; data := [] |}
  | _ =>
      if forallb (fun r => Nat.eqb (length r) (length names)) rows
      then Py.Ok {| columns := names; data := rows |}
      else Py.Raise (Py.ValueError "columns passed do not match the data")
  end.

(** [pd.DataFrame(triples)] for a list of [Triple] objects.  The columns
    are taken from the first object; an empty list gives a frame without
    columns. *)
Definition DataFrame_from_triples (triples : list (Data.Triple cell)) : DataFrame :=
  match triples with
  | [] => {| columns := []; data := [] |}
  | _ => {| columns := Data.TRIPLE_FIELD_NAMES; data := map Data.astuple triples |}
  end.

(** How [to_csv] writes a cell: a missing value as the empty string. *)
Definition render (c : cell) : string :=
  match c with
  | Some s => s
  | None => EmptyString
  end.

(** The text that [df.to_csv(path, index=False)] writes: the header, then
    the data rows; no index column. *)
Definition to_csv (df : DataFrame) : string :=
  Csv.writerows (columns df :: map (map render) (data df)).

Section Reader.

(** The type of the values [read_csv] produces, and its conversion of a
    column of fields (type inference); both are left open. *)
Variable V : Type.
Variable convert_column : list string -> list V.

Definition column (i : nat) (body : list (list string)) : list string :=
  map (fun r => nth i r EmptyString) body.

(** [df.to_dict(orient='records')]. *)
Definition to_records (header : list string) (cols : list (list V)) (n : nat)
    : option (list (list (string * V))) :=
  mapM (fun j => mapM (fun hc => (fun v => (fst hc, v)) <$> (snd hc !! j))
                   (zip header cols))
       (seq 0 n).

(** [pd.read_csv(path, keep_default_na=False)] followed by
    [to_dict(orient='records')], on the text of the file.  The first line
    that is not blank is the header. *)
Definition read_csv_records (text : string) : Py.result (list (list (string * V))) :=
  body ← Csv.tokenize text ;
  match body with
  | [] => Py.Raise (Py.EmptyDataError "No columns to parse from file")
  | header :: rows =>
      if forallb (fun r => Nat.eqb (length r) (length header)) rows then
        let cols := map (fun i => convert_column (column i rows))
                      (seq 0 (length header)) in
        match to_records header cols (length rows) with
        | Some recs => Py.Ok recs
        | None => Py.Raise (Py.NotModelled "conversion changed the length of a column")
        end
      else Py.Raise (Py.NotModelled "lines with more or fewer fields than the header")
  end.

End Reader.

End Pandas.

(** ** sqlite3: the store, its dump and the execution of a script *)

(** The part of [sqlite3] that the harness calls: [select *] on a table,
    [iterdump] and [executescript].  It is library code; this module
    covers databases of plain tables whose values are NULL or text, and
    the statements that [iterdump] emits for them (BEGIN TRANSACTION,
    CREATE TABLE, INSERT INTO ... VALUES, COMMIT).  Anything else a script
    may hold raises [NotModelled]. *)

Module Sqlite.

(** The values the store holds here: NULL or a text. *)
Inductive value : Type :=
| Null
| Text (s : string).

(** A table as [sqlite_master] and [PRAGMA table_info] describe it, with
    its rows in rowid order. *)
Record table : Type := {
  name : string;
  sql : string;
  columns : list string;
  rows : list (list value)
}.

(** A database: its user tables in the order of their creation. *)
Abbreviation db := (list table).

Fixpoint find (d : db) (n : string) : option table :=
  match d with
  | [] => None
  | t :: d' => if String.eqb (name t) n then Some t else find d' n
  end.

(** [db.execute("select * from " + n).fetchall()]. *)
Definition select_all (d : db) (n : string) : Py.result (list (list value)) :=
  match find d n with
  | Some t => Py.Ok (rows t)
  | None => Py.Raise (Py.OperationalError ("no such table: " +:+ n))
  end.

(** A text up to its first NUL. *)
Fixpoint upto_NUL (s : string) : string :=
  match s with
  | EmptyString => EmptyString
  | String c rest => if Ch.is_NUL c then EmptyString else String c (upto_NUL rest)
  end.

(** SQL's [quote()]: a text is taken as a C string, so that it ends at
    its first NUL. *)
Definition quote (v : value) : string :=
  match v with
  | Null => "NULL"
  | Text s => String Ch.squote (Str.double_char Ch.squote (upto_NUL s))
              +:+ String Ch.squote EmptyString
  end.

Definition quote_ident (n : string) : string :=
  String Ch.dquote (Str.double_char Ch.dquote n) +:+ String Ch.dquote EmptyString.

Definition insert_statement (n : string) (r : list value) : string :=
  "INSERT INTO " +:+ quote_ident n +:+ " VALUES("
  +:+ Str.join "," (map quote r) +:+ ");".

(** [ORDER BY "name"]: insertion into a list sorted by name. *)
Fixpoint insert_by_name (t : table) (sorted : list table) : list table :=
  match sorted with
  | [] => [t]
  | u :: rest =>
      if String.leb (name t) (name u) then t :: sorted
      else u :: insert_by_name t rest
  end.

Definition order_by_name (d : db) : list table :=
  fold_right insert_by_name [] d.

Definition dump_table (t : table) : list string :=
  (sql t +:+ ";") :: map (insert_statement (name t)) (rows t).

(** [db.iterdump()]: the lines it yields. *)
Definition iterdump (d : db) : list string :=
  ["BEGIN TRANSACTION;"] ++ flat_map dump_table (order_by_name d) ++ ["COMMIT;"].

(** *** Reading a script *)

Inductive quoting : Type :=
| Unquoted
| InSingle
| InDouble.

(** The statements of a script, in order: it is cut at each semicolon
    that is not inside a string literal or a quoted identifier.  A script
    that ends inside a quote ends with a statement that cannot be read. *)
Fixpoint split_statements (q : quoting) (cur : string) (s : string)
    : list (Py.result string) :=
  match s with
  | EmptyString =>
      match q with
      | Unquoted => [Py.Ok cur]
      | _ => [Py.Raise (Py.OperationalError "unrecognized token")]
      end
  | String c rest =>
      match q with
      | Unquoted =>
          if Ascii.eqb c ";"%char then
            Py.Ok cur :: split_statements Unquoted EmptyString rest
          else if Ascii.eqb c Ch.squote then split_statements InSingle (Str.snoc cur c) rest
          else if Ascii.eqb c Ch.dquote then split_statements InDouble (Str.snoc cur c) rest
          else split_statements Unquoted (Str.snoc cur c) rest
      | InSingle =>
          split_statements (if Ascii.eqb c Ch.squote then Unquoted else InSingle)
            (Str.snoc cur c) rest
      | InDouble =>
          split_statements (if Ascii.eqb c Ch.dquote then Unquoted else InDouble)
            (Str.snoc cur c) rest
      end
  end.

(** The text after an opening quote [q]: the quoted content, with doubled
    quotes read as one, and what follows the closing quote. *)
Fixpoint scan_quoted (q : ascii) (s : string) : option (string * string) :=
  match s with
  | EmptyString => None
  | String c rest =>
      if Ascii.eqb c q then
        match rest with
        | String c' rest' =>
            if Ascii.eqb c' q then
              match scan_quoted q rest' with
              | Some (body, after) => Some (String q body, after)
              | None => None
              end
            else Some (EmptyString, rest)
        | EmptyString => Some (EmptyString, EmptyString)
        end
      else
        match scan_quoted q rest with
        | Some (body, after) => Some (String c body, after)
        | None => None
        end
  end.

(** The states of the reader of a [VALUES(...)] list. *)
Inductive vstate : Type :=
| VStart
| VString (acc : string)
| VStringQuote (acc : string)
| VBare (acc : string).

Definition bare_value (word : string) : Py.result value :=
  if String.eqb word "NULL" then Py.Ok Null
  else Py.Raise (Py.NotModelled "a literal that is neither NULL nor a string").

(** Reads the literals after [VALUES(] up to the closing parenthesis;
    returns them with the text after the parenthesis. *)
Fixpoint read_values (st : vstate) (done : list value) (s : string)
    : Py.result (list value * string) :=
  match s with
  | EmptyString => Py.Raise (Py.OperationalError "incomplete input")
  | String c rest =>
      match st with
      | VStart =>
          if Ascii.eqb c Ch.squote then read_values (VString EmptyString) done rest
          else if Ascii.eqb c ","%char || Ascii.eqb c ")"%char
          then Py.Raise (Py.OperationalError "syntax error")
          else read_values (VBare (String c EmptyString)) done rest
      | VString acc =>
          if Ascii.eqb c Ch.squote then read_values (VStringQuote acc) done rest
          else read_values (VString (Str.snoc acc c)) done rest
      | VStringQuote acc =>
          if Ascii.eqb c Ch.squote then read_values (VString (Str.snoc acc c)) done rest
          else if Ascii.eqb c ","%char then read_values VStart (done ++ [Text acc]) rest
          else if Ascii.eqb c ")"%char then Py.Ok (done ++ [Text acc], rest)
          else Py.Raise (Py.NotModelled "text after a string literal")
      | VBare acc =>
          if Ascii.eqb c ","%char then
            v ← bare_value acc ; read_values VStart (done ++ [v]) rest
          else if Ascii.eqb c ")"%char then
            v ← bare_value acc ; Py.Ok (done ++ [v], rest)
          else read_values (VBare (Str.snoc acc c)) done rest
      end
  end.

(** The pieces of a column list, cut at the commas that are not inside
    parentheses. *)
Fixpoint split_columns (depth : nat) (cur : string) (s : string) : list string :=
  match s with
  | EmptyString => [cur]
  | String c rest =>
      if Ascii.eqb c "("%char then split_columns (S depth) (Str.snoc cur c) rest
      else if Ascii.eqb c ")"%char then split_columns (pred depth) (Str.snoc cur c) rest
      else if Ascii.eqb c ","%char && Nat.eqb depth 0
      then cur :: split_columns depth EmptyString rest
      else split_columns depth (Str.snoc cur c) rest
  end.

Definition constraint_keywords : list string :=
  ["CONSTRAINT"; "PRIMARY"; "UNIQUE"; "CHECK"; "FOREIGN";
   "constraint"; "primary"; "unique"; "check"; "foreign"].

Definition column_name (piece : string) : Py.result string :=
  let (n, _) := Str.span_ident (Str.lstrip piece) in
  if String.eqb n EmptyString || existsb (String.eqb n) constraint_keywords
  then Py.Raise (Py.NotModelled "a column definition that does not start with a plain name")
  else Py.Ok n.

Fixpoint all_ok {A : Type} (rs : list (Py.result A)) : Py.result (list A) :=
  match rs with
  | [] => Py.Ok []
  | r :: rs' => a ← r ; tl ← all_ok rs' ; Py.Ok (a :: tl)
  end.

(** [s] without its last character, when that is [c]. *)
Fixpoint strip_last (c : ascii) (s : string) : option string :=
  match s with
  | EmptyString => None
  | String d EmptyString => if Ascii.eqb c d then Some EmptyString else None
  | String d s' =>
      match strip_last c s' with
      | Some t => Some (String d t)
      | None => None
      end
  end.

(** The column names of [CREATE TABLE name (definitions)], given the text
    after the name. *)
Definition read_columns (after_name : string) : Py.result (list string) :=
  match Str.strip_prefix "(" (Str.lstrip after_name) with
  | None => Py.Raise (Py.NotModelled "CREATE TABLE without a column list")
  | Some inner =>
      match strip_last ")"%char inner with
      | None => Py.Raise (Py.NotModelled "text after the column list")
      | Some body =>
          if Str.contains_char (fun c => Ascii.eqb c Ch.squote || Ascii.eqb c Ch.dquote) body
          then Py.Raise (Py.NotModelled "quotes in a column list")
          else all_ok (map column_name (split_columns 0 EmptyString body))
      end
  end.

(** *** Executing statements *)

(** A connection: the database as last committed, the database as the
    connection sees it, and whether a transaction is open. *)
Record connection : Type := {
  committed : db;
  current : db;
  in_transaction : bool
}.

Definition open_connection (d : db) : connection :=
  {| committed := d; current := d; in_transaction := false |}.

(** The connection after a statement that changed the database to [d]:
    outside a transaction the change is committed at once. *)
Definition changed (c : connection) (d : db) : connection :=
  {| committed := if in_transaction c then committed c else d;
     current := d;
     in_transaction := in_transaction c |}.

Fixpoint append_row (d : db) (n : string) (r : list value) : db :=
  match d with
  | [] => []
  | t :: d' =>
      if String.eqb (name t) n
      then {| name := name t; sql := sql t; columns := columns t;
              rows := rows t ++ [r] |} :: d'
      else t :: append_row d' n r
  end.

Definition exec_create_table (c : connection) (stmt after_keyword : string)
    : Py.result connection :=
  let (n, after_name) := Str.span_ident (Str.lstrip after_keyword) in
  if String.eqb n EmptyString then Py.Raise (Py.NotModelled "a table name that is not plain")
  else if String.prefix "sqlite_" n
  then Py.Raise (Py.OperationalError "object name reserved for internal use")
  else
    match find (current c) n with
    | Some _ => Py.Raise (Py.OperationalError ("table " +:+ n +:+ " already exists"))
    | None =>
        cols ← read_columns after_name ;
        Py.Ok (changed c (current c ++
                 [{| name := n; sql := stmt; columns := cols; rows := [] |}]))
    end.

Definition exec_insert (c : connection) (after_keyword : string) : Py.result connection :=
  match scan_quoted Ch.dquote after_keyword with
  | None => Py.Raise (Py.OperationalError "unrecognized token")
  | Some (n, after_name) =>
      match Str.strip_prefix " VALUES(" after_name with
      | None => Py.Raise (Py.NotModelled "INSERT without a plain VALUES list")
      | Some vals =>
          res ← read_values VStart [] vals ;
          let '(r, trailing) := res in
          if negb (String.eqb (Str.lstrip trailing) EmptyString)
          then Py.Raise (Py.NotModelled "text after the VALUES list")
          else
            match find (current c) n with
            | None => Py.Raise (Py.OperationalError ("no such table: " +:+ n))
            | Some t =>
                if Nat.eqb (length r) (length (columns t))
                then Py.Ok (changed c (append_row (current c) n r))
                else Py.Raise (Py.OperationalError "wrong number of values supplied")
            end
      end
  end.

(** One statement of a script. *)
Definition exec_statement (c : connection) (text : string) : Py.result connection :=
  let stmt := Str.strip text in
  if String.eqb stmt EmptyString then Py.Ok c
  else if String.eqb stmt "BEGIN TRANSACTION" then
    if in_transaction c
    then Py.Raise (Py.OperationalError "cannot start a transaction within a transaction")
    else Py.Ok {| committed := committed c; current := current c; in_transaction := true |}
  else if String.eqb stmt "COMMIT" then
    if in_transaction c
    then Py.Ok {| committed := current c; current := current c; in_transaction := false |}
    else Py.Raise (Py.OperationalError "cannot commit - no transaction is active")
  else
    match Str.strip_prefix "CREATE TABLE " stmt with
    | Some after_keyword => exec_create_table c stmt after_keyword
    | None =>
        match Str.strip_prefix ("INSERT INTO " +:+ String Ch.dquote EmptyString) stmt with
        | Some after_keyword => exec_insert c after_keyword
        | None => Py.Raise (Py.NotModelled "a statement that iterdump does not emit")
        end
    end.

(** The statements in order; the first failure stops the script and
    leaves the connection as it was before the failing statement. *)
Fixpoint exec_statements (c : connection) (stmts : list (Py.result string))
    : Py.result unit * connection :=
  match stmts with
  | [] => (Py.Ok tt, c)
  | s :: rest =>
      match s ≫= exec_statement c with
      | Py.Ok c' => exec_statements c' rest
      | Py.Raise e => (Py.Raise e, c)
      end
  end.

(** [db.cursor().executescript(script)]. *)
Definition executescript (c : connection) (script : string) : Py.result unit * connection :=
  exec_statements c (split_statements Unquoted EmptyString script).

(** Leaving [with sqlite3.connect(...) as db]: commit when the block
    returned, roll back when it raised. *)
Definition leave_with {A : Type} (r : Py.result A) (c : connection) : db :=
  match r with
  | Py.Ok _ => current c
  | Py.Raise _ => committed c
  end.

End Sqlite.

(** ** Files and databases on disk *)

(** The exports and the dump read database files and write text files in
    the same directory tree, so here a path holds either.  [FS] above is
    the view of the golden comparison, which reads text files only. *)

Module World.

(** What a path holds: a text file with its bytes, or a database file. *)
Inductive node : Type :=
| TextFile (bytes : string)
| Database (d : Sqlite.db).

Abbreviation t := (gmap string node).

(** A database as a file.  The database without tables is the file of
    length zero. *)
Definition store (d : Sqlite.db) : node :=
  match d with
  | [] => TextFile EmptyString
  | _ => Database d
  end.

(** The names that stand for a file in the working directory: not the
    empty name and not [:memory:], which [sqlite3.connect] opens as a
    private database without a file; no directory part, which might be
    missing; not a directory; no NUL; of a length that a file system
    takes. *)
Definition file_name (path : string) : bool :=
  negb (String.eqb path EmptyString)
  && negb (String.eqb path ":memory:")
  && negb (String.eqb path ".")
  && negb (String.eqb path "..")
  && negb (Str.contains_char (fun c => Ascii.eqb c "/"%char || Ch.is_NUL c) path)
  && Nat.leb (String.length path) 255.

(** [sqlite3.connect(path)] for a file name in a directory where files
    can be made: the file is created when it is missing. *)
Definition connect (w : t) (path : string) : t :=
  match w !! path with
  | Some _ => w
  | None => <[path := TextFile EmptyString]> w
  end.

(** The database a connection to [path] finds when it first reads the
    file. *)
Definition load (w : t) (path : string) : Py.result Sqlite.db :=
  match w !! path with
  | Some (Database d) => Py.Ok d
  | Some (TextFile EmptyString) => Py.Ok []
  | Some (TextFile _) => Py.Raise (Py.DatabaseError "file is not a database")
  | None => Py.Raise (Py.OperationalError "unable to open database file")
  end.

(** [open(path, 'r').read()]. *)
Definition read_text (w : t) (path : string) : Py.result string :=
  match w !! path with
  | Some (TextFile bytes) =>
      if Utf8.valid bytes then Py.Ok (FS.universal_newlines bytes)
      else Py.Raise Py.UnicodeDecodeError
  | Some (Database _) => Py.Raise (Py.NotModelled "a database file read as text")
  | None => Py.Raise (Py.FileNotFoundError path)
  end.

(** A text file written in full; on a POSIX system the text is stored
    as it is. *)
Definition write_text (w : t) (path : string) (text : string) : t :=
  <[path := TextFile text]> w.

End World.

(** ** The harness: exports, dump and restore *)

Module DbHarness.

(** NULL becomes [None], a text becomes a [str]. *)
Definition to_python (v : Sqlite.value) : Pandas.cell :=
  match v with
  | Sqlite.Null => None
  | Sqlite.Text s => Some s
  end.

(** [db.execute("select * from " + table).fetchall()] on the database at
    [db_path]. *)
Definition fetchall (w : World.t) (db_path table : string)
    : Py.result (list (list Pandas.cell)) :=
  d ← World.load w db_path ;
  rows ← Sqlite.select_all d table ;
  Py.Ok (map (map to_python) rows).

(** A frame written to [output_path], or the exception that kept it from
    being built. *)
Definition save (w : World.t) (output_path : string) (df : Py.result Pandas.DataFrame)
    : Py.result unit * World.t :=
  match df with
  | Py.Ok frame => (Py.Ok tt, World.write_text w output_path (Pandas.to_csv frame))
  | Py.Raise e => (Py.Raise e, w)
  end.

(** [write_triples_list(triples, output_path)]. *)
Definition write_triples_list (w : World.t) (triples : list (Data.Triple Pandas.cell))
    (output_path : string) : Py.result unit * World.t :=
  save w output_path (Py.Ok (Pandas.DataFrame_from_triples triples)).

Section Observations.

(** [OBSERVATION_FIELD_NAMES] is defined in [stats.data]: a parameter. *)
Variable OBSERVATION_FIELD_NAMES : list string.

(** [write_observations(db_path, output_path)]. *)
Definition write_observations (w : World.t) (db_path output_path : string)
    : Py.result unit * World.t :=
  let w := World.connect w db_path in
  save w output_path
    (rows ← fetchall w db_path "observations" ;
     Pandas.DataFrame_from_rows rows OBSERVATION_FIELD_NAMES).

End Observations.

(** [write_triples(db_path, output_path)]. *)
Definition write_triples (w : World.t) (db_path output_path : string)
    : Py.result unit * World.t :=
  let w := World.connect w db_path in
  match rows ← fetchall w db_path "triples" ;
        Sqlite.all_ok (map Data.Triple_positional rows) with
  | Py.Ok triples => write_triples_list w triples output_path
  | Py.Raise e => (Py.Raise e, w)
  end.

(** [write_key_values(db_path, output_path)]. *)
Definition write_key_values (w : World.t) (db_path output_path : string)
    : Py.result unit * World.t :=
  let w := World.connect w db_path in
  save w output_path
    (rows ← fetchall w db_path "key_value_store" ;
     Pandas.DataFrame_from_rows rows ["lookup_key"; "value"]).

Section ReadTriples.

Variable V : Type.
Variable convert_column : list string -> list V.

(** [read_triples_csv(path)]. *)
Definition read_triples_csv (w : World.t) (path : string)
    : Py.result (list (Data.Triple V)) :=
  text ←
    match w !! path with
    | Some (World.TextFile bytes) => Py.Ok bytes
    | Some (World.Database _) => Py.Raise (Py.NotModelled "a database file read as text")
    | None => Py.Raise (Py.FileNotFoundError path)
    end ;
  records ← Pandas.read_csv_records V convert_column text ;
  Sqlite.all_ok (map Data.Triple_keywords records).

End ReadTriples.

(** The text that the loop [for line in db.iterdump(): f.write('%s\n' %
    line)] writes. *)
Definition dump_text (lines : list string) : string :=
  String.concat EmptyString (map (fun line => line +:+ String Ch.LF EmptyString) lines).

(** [write_full_db_to_file(db_path, output_path)].  The output file is
    opened, and so emptied, before the database is read; [iterdump]
    yields its first line before it reads the database, so that a
    database that cannot be read leaves that line in the output. *)
Definition write_full_db_to_file (w : World.t) (db_path output_path : string)
    : Py.result unit * World.t :=
  let w := World.connect w db_path in
  let w := World.write_text w output_path EmptyString in
  match World.load w db_path with
  | Py.Ok d => (Py.Ok tt, World.write_text w output_path (dump_text (Sqlite.iterdump d)))
  | Py.Raise e => (Py.Raise e, World.write_text w output_path (dump_text ["BEGIN TRANSACTION;"]))
  end.

(** Whether a script holds a statement at all. *)
Definition no_statement (script : string) : bool :=
  String.eqb (Str.strip script) EmptyString.

(** [read_full_db_from_file(db_path, input_path)]. *)
Definition read_full_db_from_file (w : World.t) (db_path input_path : string)
    : Py.result unit * World.t :=
  let w := World.connect w db_path in
  match World.read_text w input_path with
  | Py.Raise e => (Py.Raise e, w)
  | Py.Ok script =>
      if no_statement script then (Py.Ok tt, w)
      else
        match World.load w db_path with
        | Py.Raise e => (Py.Raise e, w)
        | Py.Ok d =>
            let (r, c) := Sqlite.executescript (Sqlite.open_connection d) script in
            (r, <[db_path := World.store (Sqlite.leave_with r c)]> w)
        end
  end.

End DbHarness.

(** ** Vocabulary of the statements *)

Module Spec.

(** The arguments [_run] hands to the Runner's constructor. *)
Definition args_of_flags (fl : Main.flags) : Proc.runner_args :=
  {| Proc.config_file_path := Main.config_file fl;
     Proc.input_dir_path := Main.input_dir fl;
     Proc.output_dir_path := Main.output_dir fl;
     Proc.run_mode := Main.mode fl |}.

(** The override [main] installs when the flag is set and the text of
    the instant parses. *)
Definition main_freeze (instant : string) : Freezegun.freeze :=
  {| Freezegun.time_to_freeze := instant;
     Freezegun.ignore := ["transformers"] |}.

(** The calls that [_run] makes under the overrides [clock], in order:
    the logger, the constructor when the logger returned, [run] when the
    constructor returned. *)
Definition run_events (c : Main.collaborators) (args : Proc.runner_args)
    (clock : Freezegun.stack) : list Proc.event :=
  Proc.InitializeLogger
  :: match Main.logger c with
     | Py.Raise _ => []
     | Py.Ok _ =>
         Proc.RunnerInit args
         :: match Main.runner_init c args with
            | Py.Raise _ => []
            | Py.Ok _ => [Proc.RunnerRun args clock]
            end
     end.

(** The outcome of these calls: that of the first that raises, or that
    of [run]. *)
Definition run_outcome (c : Main.collaborators) (args : Proc.runner_args)
    (clock : Freezegun.stack) : Py.result unit :=
  Main.logger c ;; Main.runner_init c args ;; Main.runner_run c args clock.

(** The calls that [main] makes in a process whose overrides at entry
    are [entry]. *)
Definition main_events (c : Main.collaborators) (fl : Main.flags)
    (entry : Freezegun.stack) : list Proc.event :=
  if Main.freeze_time fl then
    Proc.LoggingInfo "Running with time frozen at: %s" (Main.frozen_time fl)
    :: match Main.parse_time c (Main.frozen_time fl) with
       | Py.Raise _ => []
       | Py.Ok instant => run_events c (args_of_flags fl) (main_freeze instant :: entry)
       end
  else run_events c (args_of_flags fl) entry.

Definition main_outcome (c : Main.collaborators) (fl : Main.flags)
    (entry : Freezegun.stack) : Py.result unit :=
  if Main.freeze_time fl then
    instant ← Main.parse_time c (Main.frozen_time fl) ;
    run_outcome c (args_of_flags fl) (main_freeze instant :: entry)
  else run_outcome c (args_of_flags fl) entry.

(** How often [Runner.run] was called in a trace. *)
Fixpoint run_calls (tr : list Proc.event) : nat :=
  match tr with
  | [] => 0
  | Proc.RunnerRun _ _ :: tr' => S (run_calls tr')
  | _ :: tr' => run_calls tr'
  end.

(** The common shape of the three exports: connect, build a frame from
    what the connection finds, and save the frame. *)
Definition export_via (frame : Py.result Sqlite.db -> Py.result Pandas.DataFrame)
    (w : World.t) (db_path output_path : string) : Py.result unit * World.t :=
  DbHarness.save (World.connect w db_path) output_path
    (frame (World.load (World.connect w db_path) db_path)).

Definition observations_frame (OBSERVATION_FIELD_NAMES : list string)
    (d : Py.result Sqlite.db) : Py.result Pandas.DataFrame :=
  rows ← (d ← d ; rows ← Sqlite.select_all d "observations" ;
          Py.Ok (map (map DbHarness.to_python) rows)) ;
  Pandas.DataFrame_from_rows rows OBSERVATION_FIELD_NAMES.

Definition key_values_frame (d : Py.result Sqlite.db) : Py.result Pandas.DataFrame :=
  rows ← (d ← d ; rows ← Sqlite.select_all d "key_value_store" ;
          Py.Ok (map (map DbHarness.to_python) rows)) ;
  Pandas.DataFrame_from_rows rows ["lookup_key"; "value"].

Definition triples_frame (d : Py.result Sqlite.db) : Py.result Pandas.DataFrame :=
  triples ← (rows ← (d ← d ; rows ← Sqlite.select_all d "triples" ;
                     Py.Ok (map (map DbHarness.to_python) rows)) ;
             Sqlite.all_ok (map Data.Triple_positional rows)) ;
  Py.Ok (Pandas.DataFrame_from_triples triples).

(** An export run twice in a row on the same database file: same
    outcome, same bytes at the output path. *)
Definition same_twice
    (export : World.t -> string -> string -> Py.result unit * World.t)
    (w : World.t) (db_path output_path : string) : Prop :=
  fst (export (snd (export w db_path output_path)) db_path output_path)
  = fst (export w db_path output_path)
  /\ snd (export (snd (export w db_path output_path)) db_path output_path) !! output_path
     = snd (export w db_path output_path) !! output_path.

(** An export run in two worlds: same outcome, and the same bytes at the
    output path when it succeeds. *)
Definition same_bytes
    (export : World.t -> string -> string -> Py.result unit * World.t)
    (w1 w2 : World.t) (db_path output_path : string) : Prop :=
  fst (export w1 db_path output_path) = fst (export w2 db_path output_path)
  /\ (fst (export w1 db_path output_path) = Py.Ok tt ->
      snd (export w1 db_path output_path) !! output_path
      = snd (export w2 db_path output_path) !! output_path).

End Spec.

(** ** Data of the examples *)

Module Sample.

(** Collaborators that return: a parser that takes every text but
    the word garbage, as dateutil's does not take it. *)
Definition collaborators : Main.collaborators :=
  {| Main.parse_time := fun text =>
       if String.eqb text "garbage"
       then Py.Raise (Py.ValueError "Unknown string format: garbage")
       else Py.Ok text;
     Main.logger := Py.Ok tt;
     Main.runner_init := fun _ => Py.Ok tt;
     Main.runner_run := fun _ _ => Py.Ok tt |}.

(** Two golden files: the same line, once with a CR LF ending and once
    with an LF ending. *)
Definition line_crlf : string := "entity,variable" +:+ String Ch.CR (String Ch.LF "").
Definition line_lf : string := "entity,variable" +:+ String Ch.LF "".

Definition field_names : list string :=
  ["entity"; "variable"; "date"; "value"; "provenance"].

Definition observations_table (rows : list (list Sqlite.value)) : Sqlite.table :=
  {| Sqlite.name := "observations";
     Sqlite.sql := "CREATE TABLE observations (entity varchar(255), variable varchar(255), date varchar(255), value varchar(255), provenance varchar(255))";
     Sqlite.columns := field_names;
     Sqlite.rows := rows |}.

Definition triples_table (rows : list (list Sqlite.value)) : Sqlite.table :=
  {| Sqlite.name := "triples";
     Sqlite.sql := "CREATE TABLE triples (subject_id varchar(255), predicate varchar(255), object_id varchar(255), object_value TEXT)";
     Sqlite.columns := Data.TRIPLE_FIELD_NAMES;
     Sqlite.rows := rows |}.

Definition key_value_table (rows : list (list Sqlite.value)) : Sqlite.table :=
  {| Sqlite.name := "key_value_store";
     Sqlite.sql := "CREATE TABLE key_value_store (lookup_key varchar(255), value longtext)";
     Sqlite.columns := ["lookup_key"; "value"];
     Sqlite.rows := rows |}.

(** Three observations and one triple, no key-value record. *)
Definition db : Sqlite.db :=
  [ observations_table
      [ [Sqlite.Text "geoId/06"; Sqlite.Text "Count_Person"; Sqlite.Text "2020";
         Sqlite.Text "39538223"; Sqlite.Text "c/p/1"];
        [Sqlite.Text "geoId/06"; Sqlite.Text "Count_Person"; Sqlite.Text "2021";
         Sqlite.Text "39237836"; Sqlite.Text "c/p/1"];
        [Sqlite.Text "geoId/08"; Sqlite.Text "Count_Person"; Sqlite.Text "2020";
         Sqlite.Text "5773714"; Sqlite.Text "c/p/1"] ];
    triples_table
      [ [Sqlite.Text "c/p/1"; Sqlite.Text "name"; Sqlite.Text "";
         Sqlite.Text "Provenance, first"] ];
    key_value_table [] ].

Definition world : World.t := <["stats.db" := World.Database db]> ∅.

(** A store in which the three tables exist and no triple was written. *)
Definition db_without_triples : Sqlite.db :=
  [ observations_table
      [ [Sqlite.Text "geoId/06"; Sqlite.Text "Count_Person"; Sqlite.Text "2020";
         Sqlite.Text "39538223"; Sqlite.Text "c/p/1"] ];
    triples_table [];
    key_value_table [] ].

(** A store with two key-value records, one with a comma in its value
    and one without a value. *)
Definition db_with_key_values : Sqlite.db :=
  [ key_value_table
      [ [Sqlite.Text "StatVarGroups"; Sqlite.Text "groups, compressed"];
        [Sqlite.Text "Version"; Sqlite.Null] ] ].

Definition text_with_CR : string := "first line" +:+ String Ch.CR "second line".
Definition text_with_LF : string := "first line" +:+ String Ch.LF "second line".

(** A store with a carriage return in a text. *)
Definition db_with_CR : Sqlite.db :=
  [ triples_table
      [ [Sqlite.Text "c/p/1"; Sqlite.Text "description"; Sqlite.Text "";
         Sqlite.Text text_with_CR] ] ].

End Sample.

(** ** Vocabulary of the dump and restore proofs *)

Module Script.

(** A string without the characters that [P] picks. *)
Definition free_of (P : ascii -> bool) (s : string) : Prop :=
  Str.contains_char P s = false.

(** The quoting state after one more character. *)
Definition next (q : Sqlite.quoting) (c : ascii) : Sqlite.quoting :=
  match q with
  | Sqlite.Unquoted =>
      if Ascii.eqb c Ch.squote then Sqlite.InSingle
      else if Ascii.eqb c Ch.dquote then Sqlite.InDouble
      else Sqlite.Unquoted
  | Sqlite.InSingle => if Ascii.eqb c Ch.squote then Sqlite.Unquoted else Sqlite.InSingle
  | Sqlite.InDouble => if Ascii.eqb c Ch.dquote then Sqlite.Unquoted else Sqlite.InDouble
  end.

Fixpoint scan (q : Sqlite.quoting) (s : string) : Sqlite.quoting :=
  match s with
  | EmptyString => q
  | String c s' => scan (next q c) s'
  end.

Definition cuts (q : Sqlite.quoting) (c : ascii) : bool :=
  match q with
  | Sqlite.Unquoted => Ascii.eqb c ";"%char
  | _ => false
  end.

(** No semicolon of [s] ends a statement, reading from state [q]. *)
Fixpoint no_cut (q : Sqlite.quoting) (s : string) : bool :=
  match s with
  | EmptyString => true
  | String c s' => negb (cuts q c) && no_cut (next q c) s'
  end.

(** A text that is one statement: no cut, and no quote left open. *)
Definition one_statement (s : string) : Prop :=
  no_cut Sqlite.Unquoted s = true /\ scan Sqlite.Unquoted s = Sqlite.Unquoted.

(** A text without quotes and semicolons is one statement. *)
Definition is_mark (c : ascii) : bool :=
  Ascii.eqb c ";"%char || Ascii.eqb c Ch.squote || Ascii.eqb c Ch.dquote.














End Script.

Import Script.

(** ** Vocabulary of the CSV reading proofs *)

Module Tokens.

(** The tokenizer after the characters of [s]. *)
Fixpoint steps (st : Csv.state) (b : Csv.buffers) (s : string) : Csv.state * Csv.buffers :=
  match s with
  | EmptyString => (st, b)
  | String c rest => let (st', b') := Csv.step st b c in steps st' b' rest
  end.

(** The buffers with [s] added to the field being read. *)
Definition grown (b : Csv.buffers) (s : string) : Csv.buffers :=
  {| Csv.field := Csv.field b +:+ s; Csv.line := Csv.line b; Csv.lines := Csv.lines b |}.

(** The states in which the characters of a field that needs no quotes
    are added to the field. *)
Definition unquoted (st : Csv.state) : bool :=
  match st with
  | Csv.START_RECORD | Csv.WHITESPACE_LINE | Csv.START_FIELD | Csv.IN_FIELD => true
  | _ => false
  end.

(** A character that the writer leaves as it is and that ends no line. *)
Definition plain (c : ascii) : bool := negb (Csv.special c) && negb (Ch.is_CR c).

(** A field that the writer leaves without quotes and that holds no
    carriage return: all its characters are plain. *)
Definition all_plain (f : string) : Prop := free_of (fun c => negb (plain c)) f.

(** The states a field can end in. *)
Definition after_field (st : Csv.state) : bool :=
  match st with
  | Csv.START_RECORD | Csv.WHITESPACE_LINE | Csv.START_FIELD | Csv.IN_FIELD
  | Csv.QUOTE_IN_QUOTED_FIELD => true
  | _ => false
  end.

(** The states a field that is not the first of its line can end in. *)
Definition after_inner_field (st : Csv.state) : bool :=
  match st with
  | Csv.START_FIELD | Csv.IN_FIELD | Csv.QUOTE_IN_QUOTED_FIELD => true
  | _ => false
  end.

(** The buffers between two fields of a line. *)
Definition between (lines : list (list string)) (line : list string) : Csv.buffers :=
  {| Csv.field := ""; Csv.line := line; Csv.lines := lines |}.

(** The lines that the tokenizer reads back are the lines written, when
    every line has at least two fields and no field holds a carriage
    return. *)
Definition readable (row : list string) : Prop :=
  2 <= length row /\ Forall (free_of Ch.is_CR) row.

(** The record that [to_dict] makes of a triple. *)
Definition record_of {V : Type} (t : Data.Triple V) : list (string * V) :=
  [("subject_id", Data.subject_id t); ("predicate", Data.predicate t);
   ("object_id", Data.object_id t); ("object_value", Data.object_value t)].

(** The rows that [to_csv] writes for a list of triples. *)
Definition triple_row (t : Data.Triple Pandas.cell) : list string :=
  map Pandas.render (Data.astuple t).

End Tokens.

Import Tokens.

(** ** Sessions: several invocations in one process *)

Module Session.

(** What a process may call, one after the other.  The caller goes on
    after an invocation of [main] whether it returned or raised. *)
Inductive call : Type :=
| Main (FLAGS : Main.flags)
| UseFakeGzipTime (timestamp : Z).

Section WithCollaborators.

Variable c : Main.collaborators.

Definition step (p : Proc.state) (call : call) : Proc.state :=
  match call with
  | Main FLAGS => snd (Main.main c FLAGS p)
  | UseFakeGzipTime timestamp => GzipTime.use_fake_gzip_time timestamp p
  end.

Definition exec (p : Proc.state) (calls : list call) : Proc.state :=
  fold_left step calls p.

(** The collaborators' calls that one invocation adds to the trace, in a
    process whose overrides at entry are [entry]. *)
Definition events (entry : Freezegun.stack) (call : call) : list Proc.event :=
  match call with
  | Main FLAGS => Spec.main_events c FLAGS entry
  | UseFakeGzipTime _ => []
  end.

End WithCollaborators.

(** The binding of [gzip.time] after the calls: that of the last
    [use_fake_gzip_time], or the one before them. *)
Definition gzip_after (before : Proc.gzip_time_binding) (calls : list call)
    : Proc.gzip_time_binding :=
  fold_left (fun b call => match call with
                           | Main _ => b
                           | UseFakeGzipTime timestamp => Proc.FakeGzipTime timestamp
                           end) calls before.

End Session.

(** ** What an export leaves alone *)

Module Frame.


End Frame.

(** ** NULL and the empty text *)

Module Nulls.

(** A value with NULL replaced by the empty text. *)
Definition blank (v : Sqlite.value) : Sqlite.value :=
  match v with
  | Sqlite.Null => Sqlite.Text ""
  | Sqlite.Text s => Sqlite.Text s
  end.

Definition blank_table (t : Sqlite.table) : Sqlite.table :=
  {| Sqlite.name := Sqlite.name t; Sqlite.sql := Sqlite.sql t;
     Sqlite.columns := Sqlite.columns t;
     Sqlite.rows := map (map blank) (Sqlite.rows t) |}.

(** A store with every NULL replaced by the empty text. *)
Definition blank_nulls (d : Sqlite.db) : Sqlite.db := map blank_table d.

(** Two outcomes of building a frame that are written alike. *)
Definition alike (r1 r2 : Py.result Pandas.DataFrame) : Prop :=
  match r1, r2 with
  | Py.Ok df1, Py.Ok df2 => Pandas.to_csv df1 = Pandas.to_csv df2
  | Py.Raise e1, Py.Raise e2 => e1 = e2
  | _, _ => False
  end.

(** A store with NULLs in two of its tables. *)
Definition sample : Sqlite.db :=
  [ Sample.triples_table
      [ [Sqlite.Text "c/p/1"; Sqlite.Text "name"; Sqlite.Null;
         Sqlite.Text "Provenance, first"] ];
    Sample.key_value_table [ [Sqlite.Text "StatVarGroups"; Sqlite.Null] ] ].

End Nulls.

(** ** The order of the tables in a dump *)

Module Ordering.


End Ordering.

(** * Properties *)

(** ** compare_files *)

Section CompareFiles.

Variable f : FS.fs.
Variables actual_path expected_path : string.
Variable message : option string.

Lemma path_exists_true (p : string) :
  FS.path_exists f p = true <-> exists bytes, f !! p = Some bytes.
Proof.
  unfold FS.path_exists. destruct (f !! p); split; eauto; try discriminate.
  intros [? ?]; discriminate.
Qed.

Lemma path_exists_false (p : string) :
  FS.path_exists f p = false <-> f !! p = None.
Proof.
  unfold FS.path_exists. destruct (f !! p); split; congruence.
Qed.

Lemma compare_files_neither :
  f !! actual_path = None -> f !! expected_path = None ->
  Harness.compare_files f actual_path expected_path message = Py.Ok tt.
Proof.
  intros Ha He. unfold Harness.compare_files, FS.path_exists.
  rewrite Ha, He. reflexivity.
Qed.

Lemma compare_files_only_actual (bytes : string) :
  f !! actual_path = Some bytes -> f !! expected_path = None ->
  Harness.compare_files f actual_path expected_path message
  = Py.Raise (Py.AssertionError (Some (Harness.existence_message message))).
Proof.
  intros Ha He. unfold Harness.compare_files, FS.path_exists.
  rewrite Ha, He. reflexivity.
Qed.

Lemma compare_files_only_expected (bytes : string) :
  f !! actual_path = None -> f !! expected_path = Some bytes ->
  Harness.compare_files f actual_path expected_path message
  = Py.Raise (Py.AssertionError (Some (Harness.existence_message message))).
Proof.
  intros Ha He. unfold Harness.compare_files, FS.path_exists.
  rewrite Ha, He. reflexivity.
Qed.

Lemma compare_files_both (got want : string) :
  f !! actual_path = Some got -> f !! expected_path = Some want ->
  Harness.compare_files f actual_path expected_path message
  = if Utf8.valid got && Utf8.valid want
    then Harness.assertEqual_str (FS.universal_newlines got)
           (FS.universal_newlines want) message
    else Py.Raise Py.UnicodeDecodeError.
Proof.
  intros Ha He. unfold Harness.compare_files, FS.path_exists, FS.read_text.
  rewrite Ha, He. destruct (Utf8.valid got), (Utf8.valid want); reflexivity.
Qed.

Lemma assertEqual_str_passes (a b : string) (msg : option string) :
  Harness.assertEqual_str a b msg = Py.Ok tt <-> a = b.
Proof.
  unfold Harness.assertEqual_str. destruct (String.eqb_spec a b); split;
    intros; try reflexivity; try discriminate; congruence.
Qed.

End CompareFiles.

(** C2, as stated, fails: two files that differ in their bytes (CR LF
    against LF line endings) are accepted by [compare_files], because both
    are read through text-mode streams. *)
Lemma compare_files_accepts_different_bytes :
  let f : FS.fs := <["actual.csv" := Sample.line_crlf]> (<["expected.csv" := Sample.line_lf]> ∅) in
  Harness.compare_files f "actual.csv" "expected.csv" None = Py.Ok tt
  /\ f !! "actual.csv" = Some Sample.line_crlf
  /\ f !! "expected.csv" = Some Sample.line_lf
  /\ Sample.line_crlf <> Sample.line_lf.
Proof.
  cbv zeta. repeat split; try (vm_compute; reflexivity).
  vm_compute. discriminate.
Qed.

(** C2 (amended): [compare_files] passes exactly when neither file exists
    or both exist, both hold text that the stream can decode, and their
    contents, read as text with every line ending delivered as LF, are
    equal; files with identical bytes that can be decoded therefore pass;
    whenever exactly one of the two files exists the call fails with the
    existence assertion, whatever the existing file holds; and when both
    exist and one cannot be decoded the call raises the decoding
    error. *)
Theorem compare_files_passes_iff_text_equal
    (f : FS.fs) (actual_path expected_path : string) (message : option string) :
  (Harness.passes (Harness.compare_files f actual_path expected_path message) <->
     (exists got want,
        f !! actual_path = Some got /\ f !! expected_path = Some want
        /\ Utf8.valid got = true /\ Utf8.valid want = true
        /\ FS.universal_newlines got = FS.universal_newlines want)
     \/ (f !! actual_path = None /\ f !! expected_path = None))
  /\ ((exists bytes, f !! actual_path = Some bytes /\ f !! expected_path = Some bytes
                     /\ Utf8.valid bytes = true) ->
      Harness.passes (Harness.compare_files f actual_path expected_path message))
  /\ (FS.path_exists f actual_path <> FS.path_exists f expected_path ->
      Harness.compare_files f actual_path expected_path message
      = Py.Raise (Py.AssertionError (Some (Harness.existence_message message))))
  /\ (forall got want,
        f !! actual_path = Some got -> f !! expected_path = Some want ->
        Utf8.valid got && Utf8.valid want = false ->
        Harness.compare_files f actual_path expected_path message
        = Py.Raise Py.UnicodeDecodeError).
Proof.
  unfold Harness.passes.
  destruct (f !! actual_path) as [got|] eqn:Ha;
    destruct (f !! expected_path) as [want|] eqn:He.
  - rewrite (compare_files_both f _ _ message got want Ha He).
    assert (Hex : FS.path_exists f actual_path = FS.path_exists f expected_path)
      by (unfold FS.path_exists; now rewrite Ha, He).
    destruct (Utf8.valid got) eqn:Vg, (Utf8.valid want) eqn:Vw; simpl.
    + rewrite assertEqual_str_passes. split; [split|split; [|split]].
      * intros Heq. left. exists got, want. auto.
      * intros [(g & w & Hg & Hw & _ & _ & Heq)|[? _]]; congruence.
      * intros (b & Hb1 & Hb2 & _). congruence.
      * congruence.
      * intros g w [= <-] [= <-]. rewrite Vg, Vw. discriminate.
    + split; [split|split; [|split]].
      * discriminate.
      * intros [(g & w & Hg & Hw & _ & Vw' & _)|[? _]]; congruence.
      * intros (b & Hb1 & Hb2 & Vb). congruence.
      * congruence.
      * intros g w _ _ _. reflexivity.
    + split; [split|split; [|split]].
      * discriminate.
      * intros [(g & w & Hg & Hw & Vg' & _ & _)|[? _]]; congruence.
      * intros (b & Hb1 & Hb2 & Vb). congruence.
      * congruence.
      * intros g w _ _ _. reflexivity.
    + split; [split|split; [|split]].
      * discriminate.
      * intros [(g & w & Hg & Hw & Vg' & _ & _)|[? _]]; congruence.
      * intros (b & Hb1 & Hb2 & Vb). congruence.
      * congruence.
      * intros g w _ _ _. reflexivity.
  - rewrite (compare_files_only_actual f _ _ message got Ha He).
    repeat split; try discriminate.
    + intros [(g & w & _ & Hw & _)|[? _]]; congruence.
    + intros (b & _ & Hb & _). congruence.
  - rewrite (compare_files_only_expected f _ _ message want Ha He).
    repeat split; try discriminate.
    + intros [(g & w & Hg & _ & _)|[_ ?]]; congruence.
    + intros (b & Hb & _). congruence.
  - rewrite (compare_files_neither f _ _ message Ha He).
    repeat split; auto; try discriminate.
    unfold FS.path_exists. rewrite Ha, He. congruence.
Qed.

(** Two files with the same bytes that are not UTF-8 (0xFF, then a line
    feed) do not compare equal: reading the first raises. *)
Example compare_files_undecodable :
  let bytes := String (ascii_of_N 255) (String Ch.LF "") in
  let f : FS.fs := <["actual.bin" := bytes]> (<["expected.bin" := bytes]> ∅) in
  Harness.compare_files f "actual.bin" "expected.bin" None
  = Py.Raise Py.UnicodeDecodeError
  /\ Harness.compare_files f "actual.bin" "actual.bin" None
     = Py.Raise Py.UnicodeDecodeError.
Proof. cbv zeta. split; vm_compute; reflexivity. Qed.

(** Well-formed and ill-formed byte sequences: a two-byte and a
    three-byte character; a lone continuation byte, an overlong form, a
    surrogate, a truncated sequence and a code point above U+10FFFF. *)
Example utf8_valid_examples :
  let bytes := fun codes : list N =>
    fold_right (fun n s => String (ascii_of_N n) s) "" codes in
  Utf8.valid (bytes [195; 169]%N) = true
  /\ Utf8.valid (bytes [226; 130; 172]%N) = true
  /\ Utf8.valid (bytes [240; 159; 152; 128]%N) = true
  /\ Utf8.valid (bytes [128]%N) = false
  /\ Utf8.valid (bytes [192; 128]%N) = false
  /\ Utf8.valid (bytes [224; 128; 128]%N) = false
  /\ Utf8.valid (bytes [237; 160; 128]%N) = false
  /\ Utf8.valid (bytes [226; 130]%N) = false
  /\ Utf8.valid (bytes [244; 144; 128; 128]%N) = false
  /\ Utf8.valid (bytes [255; 10]%N) = false.
Proof. cbv zeta. repeat split. Qed.

(** C3, as stated, fails: both files exist, and the call still fails
    because their contents differ. *)
Lemma compare_files_both_exist_but_fails :
  let f : FS.fs := <["actual.csv" := "a,b"]> (<["expected.csv" := "a,c"]> ∅) in
  FS.path_exists f "actual.csv" = true
  /\ FS.path_exists f "expected.csv" = true
  /\ Harness.compare_files f "actual.csv" "expected.csv" None
     = Py.Raise (Py.AssertionError None).
Proof. cbv zeta. repeat split; vm_compute; reflexivity. Qed.

(** C3 (amended): when exactly one of the two paths exists the call fails
    whatever the file holds; when neither exists it passes; when both
    exist the outcome is decided by the contents: it passes exactly when
    both can be decoded and the two texts are equal. *)
Theorem compare_files_existence_then_content
    (f : FS.fs) (a b : string) (message : option string) :
  (forall bytes, f !! b = None -> a <> b ->
     Harness.compare_files (<[a := bytes]> f) a b message
     = Py.Raise (Py.AssertionError (Some (Harness.existence_message message))))
  /\ (forall bytes, f !! a = None -> a <> b ->
     Harness.compare_files (<[b := bytes]> f) a b message
     = Py.Raise (Py.AssertionError (Some (Harness.existence_message message))))
  /\ (FS.path_exists f a = false /\ FS.path_exists f b = false ->
      Harness.passes (Harness.compare_files f a b message))
  /\ (forall got want, f !! a = Some got -> f !! b = Some want ->
      (Harness.passes (Harness.compare_files f a b message) <->
       Utf8.valid got = true /\ Utf8.valid want = true
       /\ FS.universal_newlines got = FS.universal_newlines want)).
Proof.
  split; [|split; [|split; [|]]].
  - intros bytes Hb Hne.
    apply (compare_files_only_actual _ _ _ _ bytes).
    + apply lookup_insert_eq.
    + rewrite lookup_insert_ne by assumption. exact Hb.
  - intros bytes Ha Hne.
    apply (compare_files_only_expected _ _ _ _ bytes).
    + rewrite lookup_insert_ne by congruence. exact Ha.
    + apply lookup_insert_eq.
  - intros [Ha Hb]. apply compare_files_neither; now apply path_exists_false.
  - intros got want Ha Hb. unfold Harness.passes.
    rewrite (compare_files_both f _ _ message got want) by assumption.
    destruct (Utf8.valid got), (Utf8.valid want); simpl;
      rewrite ?assertEqual_str_passes; split;
      try discriminate; try tauto; intros (? & ? & ?); discriminate.
Qed.

(** ** is_write_mode *)

Lemma is_write_mode_module_body (e : Env.environ) :
  TestUtil.is_write_mode (TestUtil.module_body e) = true
  <-> e !! "TEST_MODE" = Some "write".
Proof.
  unfold TestUtil.is_write_mode, TestUtil.module_body, Env.getenv. simpl.
  destruct (e !! "TEST_MODE") as [v|].
  - rewrite String.eqb_eq. split; congruence.
  - simpl. split; discriminate.
Qed.

(** C8: the harness is in write mode exactly when TEST_MODE is set to the
    string "write"; any other value, and an unset variable, give verify
    mode. *)
Theorem is_write_mode_iff_TEST_MODE_write (e : Env.environ) :
  (TestUtil.is_write_mode (TestUtil.module_body e) = true
   <-> e !! "TEST_MODE" = Some "write")
  /\ (TestUtil.is_write_mode (TestUtil.module_body e) = false
      <-> e !! "TEST_MODE" <> Some "write")
  /\ TestUtil.is_write_mode (TestUtil.module_body (delete "TEST_MODE" e)) = false.
Proof.
  split; [apply is_write_mode_module_body|]. split.
  - rewrite <- is_write_mode_module_body.
    destruct (TestUtil.is_write_mode _); split; congruence.
  - unfold TestUtil.is_write_mode, TestUtil.module_body, Env.getenv.
    rewrite lookup_delete_eq. reflexivity.
Qed.

Lemma step_keeps_loaded (p : TestUtil.process) (a : TestUtil.action) (g : TestUtil.globals) :
  TestUtil.test_util p = Some g ->
  TestUtil.test_util (TestUtil.step p a) = Some g.
Proof.
  intros H. destruct a; simpl; try assumption.
  rewrite H. assumption.
Qed.

Lemma run_keeps_loaded (acts : list TestUtil.action) (p : TestUtil.process)
    (g : TestUtil.globals) :
  TestUtil.test_util p = Some g ->
  TestUtil.test_util (TestUtil.run p acts) = Some g.
Proof.
  revert p. induction acts as [|a acts IH]; intros p H; [exact H|].
  simpl. apply IH. now apply step_keeps_loaded.
Qed.

(** C9: TEST_MODE is read when the module is imported and never again:
    after the import, whatever is done to the environment (and however
    often the module is imported again), every call of [is_write_mode]
    returns the same boolean, which is true exactly when the variable held
    "write" at the import; "WRITE", "Write", the empty string and an unset
    variable all give false. *)
Theorem is_write_mode_fixed_at_import (e : Env.environ) (later : list TestUtil.action) :
  let p := TestUtil.run (TestUtil.step (TestUtil.start e) TestUtil.Import) later in
  TestUtil.call_is_write_mode p
  = Some (TestUtil.is_write_mode (TestUtil.module_body e))
  /\ (TestUtil.call_is_write_mode p = Some true <-> e !! "TEST_MODE" = Some "write")
  /\ TestUtil.is_write_mode (TestUtil.module_body (<["TEST_MODE" := "WRITE"]> e)) = false
  /\ TestUtil.is_write_mode (TestUtil.module_body (<["TEST_MODE" := "Write"]> e)) = false
  /\ TestUtil.is_write_mode (TestUtil.module_body (<["TEST_MODE" := ""]> e)) = false
  /\ TestUtil.is_write_mode (TestUtil.module_body (delete "TEST_MODE" e)) = false.
Proof.
  cbv zeta.
  assert (Hcall : TestUtil.call_is_write_mode
            (TestUtil.run (TestUtil.step (TestUtil.start e) TestUtil.Import) later)
          = Some (TestUtil.is_write_mode (TestUtil.module_body e))).
  { unfold TestUtil.call_is_write_mode.
    rewrite (run_keeps_loaded later _ (TestUtil.module_body e)); reflexivity. }
  split; [exact Hcall|]. split.
  - rewrite Hcall, <- is_write_mode_module_body. split; congruence.
  - unfold TestUtil.is_write_mode, TestUtil.module_body, Env.getenv.
    rewrite !lookup_insert_eq, lookup_delete_eq. repeat split.
Qed.

(** An environment change after the import is not seen: the variable is
    set to "write" once the module is loaded, and the harness stays in
    verify mode. *)
Example is_write_mode_ignores_later_putenv :
  TestUtil.call_is_write_mode
    (TestUtil.run (TestUtil.start ∅)
       [TestUtil.Import; TestUtil.Putenv "TEST_MODE" "write"; TestUtil.Import])
  = Some false.
Proof. vm_compute. reflexivity. Qed.

(** ** main *)

Section MainFacts.

Variable c : Main.collaborators.
Variable FLAGS : Main.flags.

Lemma _run_spec (p : Proc.state) :
  Main._run c FLAGS p
  = (Spec.run_outcome c (Spec.args_of_flags FLAGS) (Proc.freezes p),
     {| Proc.freezes := Proc.freezes p;
        Proc.gzip_time := Proc.gzip_time p;
        Proc.trace := Proc.trace p
          ++ Spec.run_events c (Spec.args_of_flags FLAGS) (Proc.freezes p) |}).
Proof.
  unfold Main._run, mbind, proc_bind, Proc.bind, Main.initialize_logger,
    Main.Runner, Main.Runner_run, Proc.emit, Spec.args_of_flags,
    Spec.run_outcome, Spec.run_events. simpl.
  destruct (Main.logger c) as [[]|e]; simpl; [|reflexivity].
  destruct (Main.runner_init c _) as [[]|e]; simpl;
    rewrite <- ?app_assoc; reflexivity.
Qed.

Lemma main_spec (p : Proc.state) :
  Main.main c FLAGS p
  = (Spec.main_outcome c FLAGS (Proc.freezes p),
     {| Proc.freezes := Proc.freezes p;
        Proc.gzip_time := Proc.gzip_time p;
        Proc.trace := Proc.trace p ++ Spec.main_events c FLAGS (Proc.freezes p) |}).
Proof.
  unfold Main.main, Spec.main_outcome, Spec.main_events.
  destruct (Main.freeze_time FLAGS); [|apply _run_spec].
  unfold mbind, proc_bind, Proc.bind, Main.logging_info, Main.with_freeze_time,
    Main.freeze_time_object, Proc.with_. cbn beta iota.
  destruct (Main.parse_time c (Main.frozen_time FLAGS)) as [instant|e];
    cbn [mbind result_bind Py.bind]; cbn beta iota; [|reflexivity].
  unfold mbind, proc_bind, Proc.bind. cbn beta iota.
  rewrite _run_spec. simpl. rewrite <- app_assoc. reflexivity.
Qed.


End MainFacts.



(** C6, as stated, fails: [use_fake_gzip_time] replaces gzip's time source
    for good.  After it and one complete frozen run of [main], the
    freezegun override is gone but gzip still reads the fixed timestamp,
    where a fresh process reads the real clock. *)
Lemma gzip_override_outlives_invocation :
  let FLAGS := {| Main.config_file := Some "config.json";
                  Main.input_dir := "input";
                  Main.output_dir := "output";
                  Main.mode := "customdc";
                  Main.freeze_time := true;
                  Main.frozen_time := "2023-01-01 00:00:00" |} in
  let out := Main.main Sample.collaborators FLAGS
               (GzipTime.use_fake_gzip_time 0 Proc.initial) in
  fst out = Py.Ok tt
  /\ Proc.freezes (snd out) = []
  /\ Proc.gzip_now (snd out) = Proc.Fixed 0
  /\ Proc.gzip_now Proc.initial = Proc.FromTimeModule [].
Proof. cbv zeta. repeat split. Qed.

(** C6 (amended): the override that [main] installs with [freeze_time] is
    removed when the [with] block is left, whether [Runner.run] returns or
    raises: after [main] the freezegun overrides are those in force before
    it.  The gzip time source is outside any scope: [use_fake_gzip_time]
    rebinds it, [main] leaves the binding as it found it, and it stays
    until it is assigned again. *)
Theorem main_restores_freezegun_clock
    (c : Main.collaborators) (FLAGS : Main.flags) (p : Proc.state) (timestamp : Z) :
  Proc.freezes (snd (Main.main c FLAGS p)) = Proc.freezes p
  /\ Proc.gzip_time (snd (Main.main c FLAGS p)) = Proc.gzip_time p
  /\ Proc.freezes (GzipTime.use_fake_gzip_time timestamp p) = Proc.freezes p
  /\ Proc.gzip_time (GzipTime.use_fake_gzip_time timestamp p)
     = Proc.FakeGzipTime timestamp
  /\ Proc.gzip_now
       (snd (Main.main c FLAGS (GzipTime.use_fake_gzip_time timestamp p)))
     = Proc.Fixed timestamp.
Proof.
  rewrite !main_spec. unfold Proc.gzip_now. simpl. repeat split.
Qed.

(** The teardown does not depend on the outcome: a Runner that raises
    leaves the clock as a Runner that returns does. *)
Example main_teardown_on_failure :
  let failing :=
    {| Main.parse_time := Main.parse_time Sample.collaborators;
       Main.logger := Py.Ok tt;
       Main.runner_init := fun _ => Py.Ok tt;
       Main.runner_run := fun _ _ => Py.Raise (Py.RuntimeError "run failed") |} in
  let FLAGS := {| Main.config_file := None;
                  Main.input_dir := "input";
                  Main.output_dir := "output";
                  Main.mode := "customdc";
                  Main.freeze_time := true;
                  Main.frozen_time := "2023-01-01 00:00:00" |} in
  let out := Main.main failing FLAGS Proc.initial in
  fst out = Py.Raise (Py.RuntimeError "run failed")
  /\ Proc.freezes (snd out) = []
  /\ Spec.run_calls (Proc.trace (snd out)) = 1.
Proof. cbv zeta. repeat split. Qed.

(** ** The CSV exports *)

Section ExportFacts.

Variable OBSERVATION_FIELD_NAMES : list string.

(** What a connection finds at [path] depends on that file alone. *)
Lemma load_ext (w1 w2 : World.t) (path : string) :
  w1 !! path = w2 !! path -> World.load w1 path = World.load w2 path.
Proof. intros H. unfold World.load. rewrite H. reflexivity. Qed.

Lemma connect_other (w : World.t) (db_path path : string) :
  db_path <> path -> World.connect w db_path !! path = w !! path.
Proof.
  intros H. unfold World.connect. destruct (w !! db_path); [reflexivity|].
  now rewrite lookup_insert_ne.
Qed.

Lemma connect_idem (w : World.t) (db_path : string) :
  World.connect (World.connect w db_path) db_path = World.connect w db_path.
Proof.
  unfold World.connect. destruct (w !! db_path) eqn:E.
  - rewrite E. reflexivity.
  - rewrite lookup_insert_eq. reflexivity.
Qed.

Lemma connect_ext (w1 w2 : World.t) (db_path : string) :
  w1 !! db_path = w2 !! db_path ->
  World.connect w1 db_path !! db_path = World.connect w2 db_path !! db_path.
Proof.
  intros H. unfold World.connect. rewrite <- H.
  destruct (w1 !! db_path) eqn:E; [congruence|].
  now rewrite !lookup_insert_eq.
Qed.

Lemma write_observations_via (w : World.t) (db_path output_path : string) :
  DbHarness.write_observations OBSERVATION_FIELD_NAMES w db_path output_path
  = Spec.export_via (Spec.observations_frame OBSERVATION_FIELD_NAMES) w db_path output_path.
Proof. reflexivity. Qed.

Lemma write_key_values_via (w : World.t) (db_path output_path : string) :
  DbHarness.write_key_values w db_path output_path
  = Spec.export_via Spec.key_values_frame w db_path output_path.
Proof. reflexivity. Qed.

Lemma write_triples_via (w : World.t) (db_path output_path : string) :
  DbHarness.write_triples w db_path output_path
  = Spec.export_via Spec.triples_frame w db_path output_path.
Proof.
  unfold DbHarness.write_triples, Spec.export_via, Spec.triples_frame, DbHarness.fetchall.
  destruct (World.load _ _) as [d|e]; simpl; [|reflexivity].
  destruct (Sqlite.select_all d "triples") as [rows|e]; simpl; [|reflexivity].
  destruct (Sqlite.all_ok _) as [ts|e]; reflexivity.
Qed.

Lemma export_via_result (frame : Py.result Sqlite.db -> Py.result Pandas.DataFrame)
    (w : World.t) (db_path output_path : string) :
  fst (Spec.export_via frame w db_path output_path)
  = match frame (World.load (World.connect w db_path) db_path) with
    | Py.Ok _ => Py.Ok tt
    | Py.Raise e => Py.Raise e
    end.
Proof. unfold Spec.export_via. destruct (frame _); reflexivity. Qed.

Lemma export_via_output (frame : Py.result Sqlite.db -> Py.result Pandas.DataFrame)
    (w : World.t) (db_path output_path : string) :
  db_path <> output_path ->
  snd (Spec.export_via frame w db_path output_path) !! output_path
  = match frame (World.load (World.connect w db_path) db_path) with
    | Py.Ok df => Some (World.TextFile (Pandas.to_csv df))
    | Py.Raise _ => w !! output_path
    end.
Proof.
  intros Hne. unfold Spec.export_via. destruct (frame _); simpl.
  - apply lookup_insert_eq.
  - now apply connect_other.
Qed.

Lemma export_via_database (frame : Py.result Sqlite.db -> Py.result Pandas.DataFrame)
    (w : World.t) (db_path output_path : string) :
  db_path <> output_path ->
  snd (Spec.export_via frame w db_path output_path) !! db_path
  = World.connect w db_path !! db_path.
Proof.
  intros Hne. unfold Spec.export_via. destruct (frame _); simpl; [|reflexivity].
  unfold World.write_text. rewrite lookup_insert_ne by congruence. reflexivity.
Qed.

(** In two worlds that hold the same database file, an export has the
    same outcome, and when it succeeds it leaves the same bytes. *)
Lemma export_via_same_database
    (frame : Py.result Sqlite.db -> Py.result Pandas.DataFrame)
    (w1 w2 : World.t) (db_path output_path : string) :
  w1 !! db_path = w2 !! db_path ->
  fst (Spec.export_via frame w1 db_path output_path)
  = fst (Spec.export_via frame w2 db_path output_path)
  /\ (fst (Spec.export_via frame w1 db_path output_path) = Py.Ok tt ->
      snd (Spec.export_via frame w1 db_path output_path) !! output_path
      = snd (Spec.export_via frame w2 db_path output_path) !! output_path).
Proof.
  intros Hdb. unfold Spec.export_via.
  rewrite (load_ext (World.connect w1 db_path) (World.connect w2 db_path))
    by (now apply connect_ext).
  destruct (frame _); simpl; split; try reflexivity; try discriminate.
  intros _. unfold World.write_text. now rewrite !lookup_insert_eq.
Qed.

(** Run twice in a row, an export has the same outcome and leaves the
    same bytes at the output path. *)
Lemma export_via_twice
    (frame : Py.result Sqlite.db -> Py.result Pandas.DataFrame)
    (w : World.t) (db_path output_path : string) :
  db_path <> output_path ->
  fst (Spec.export_via frame (snd (Spec.export_via frame w db_path output_path))
         db_path output_path)
  = fst (Spec.export_via frame w db_path output_path)
  /\ snd (Spec.export_via frame (snd (Spec.export_via frame w db_path output_path))
            db_path output_path) !! output_path
     = snd (Spec.export_via frame w db_path output_path) !! output_path.
Proof.
  intros Hne.
  set (w' := snd (Spec.export_via frame w db_path output_path)).
  assert (Hload : World.load (World.connect w' db_path) db_path
                  = World.load (World.connect w db_path) db_path).
  { apply load_ext.
    transitivity (World.connect (World.connect w db_path) db_path !! db_path).
    - apply connect_ext. unfold w'. now apply export_via_database.
    - now rewrite connect_idem. }
  rewrite !export_via_result, (export_via_output frame w') by assumption.
  rewrite Hload. unfold w'. rewrite export_via_output by assumption.
  destruct (frame _); split; reflexivity.
Qed.

End ExportFacts.

(** *** Running an export twice *)

(** Run twice in a row on a database file that is not the output path,
    each of the three CSV exports has the same outcome both times and
    leaves the same bytes in the output file. *)
Theorem csv_export_twice_same_bytes
    (OBSERVATION_FIELD_NAMES : list string) (w : World.t)
    (db_path output_path : string) :
  db_path <> output_path ->
  Spec.same_twice (DbHarness.write_observations OBSERVATION_FIELD_NAMES) w db_path output_path
  /\ Spec.same_twice DbHarness.write_triples w db_path output_path
  /\ Spec.same_twice DbHarness.write_key_values w db_path output_path.
Proof.
  intros Hne. unfold Spec.same_twice. repeat split.
  - rewrite !write_observations_via. now apply export_via_twice.
  - rewrite !write_observations_via. now apply export_via_twice.
  - rewrite !write_triples_via. now apply export_via_twice.
  - rewrite !write_triples_via. now apply export_via_twice.
  - rewrite !write_key_values_via. now apply export_via_twice.
  - rewrite !write_key_values_via. now apply export_via_twice.
Qed.

Lemma csv_export_twice_same_bytes_example :
  "stats.db" <> "observations.csv"
  /\ Spec.same_twice (DbHarness.write_observations Sample.field_names)
       Sample.world "stats.db" "observations.csv"
  /\ Spec.same_twice DbHarness.write_triples Sample.world "stats.db" "observations.csv"
  /\ Spec.same_twice DbHarness.write_key_values Sample.world "stats.db" "observations.csv".
Proof.
  split; [discriminate|].
  apply (csv_export_twice_same_bytes Sample.field_names Sample.world
           "stats.db" "observations.csv").
  discriminate.
Defined.

(** The bytes the exports leave for the example store. *)
Example write_observations_example :
  let out := DbHarness.write_observations Sample.field_names Sample.world
               "stats.db" "observations.csv" in
  fst out = Py.Ok tt
  /\ snd out !! "observations.csv"
     = Some (World.TextFile
               (Csv.writerows
                  [ ["entity"; "variable"; "date"; "value"; "provenance"];
                    ["geoId/06"; "Count_Person"; "2020"; "39538223"; "c/p/1"];
                    ["geoId/06"; "Count_Person"; "2021"; "39237836"; "c/p/1"];
                    ["geoId/08"; "Count_Person"; "2020"; "5773714"; "c/p/1"] ])).
Proof. cbv zeta. split; vm_compute; reflexivity. Qed.

Example write_triples_example :
  let out := DbHarness.write_triples Sample.world "stats.db" "triples.csv" in
  fst out = Py.Ok tt
  /\ snd out !! "triples.csv"
     = Some (World.TextFile
               ("subject_id,predicate,object_id,object_value" +:+ String Ch.LF
                  ("c/p/1,name,," +:+ String Ch.dquote ("Provenance, first"
                     +:+ String Ch.dquote (String Ch.LF ""))))).
Proof. cbv zeta. split; vm_compute; reflexivity. Qed.

(** *** Header and rows *)

Lemma DataFrame_from_rows_ok (rows : list (list Pandas.cell)) (names : list string)
    (df : Pandas.DataFrame) :
  Pandas.DataFrame_from_rows rows names = Py.Ok df ->
  df = {| Pandas.columns := names; Pandas.data := rows |}.
Proof.
  unfold Pandas.DataFrame_from_rows. destruct rows as [|r rows].
  - intros [= <-]. reflexivity.
  - destruct (forallb _ _); [intros [= <-]; reflexivity | discriminate].
Qed.

Lemma to_csv_of_rows (names : list string) (rows : list (list Sqlite.value)) :
  Pandas.to_csv {| Pandas.columns := names;
                   Pandas.data := map (map DbHarness.to_python) rows |}
  = Csv.writerows
      (names :: map (map (fun v => Pandas.render (DbHarness.to_python v))) rows).
Proof.
  unfold Pandas.to_csv. simpl. rewrite map_map. do 2 f_equal.
  apply map_ext. intros r. now rewrite map_map.
Qed.

(** A successful [write_observations] writes the field names as the
    first record, then one record per row, in the order of the rows and
    with the cells of the row and nothing else. *)
Lemma write_observations_header_and_rows
    (OBSERVATION_FIELD_NAMES : list string) (w : World.t)
    (db_path output_path : string) :
  fst (DbHarness.write_observations OBSERVATION_FIELD_NAMES w db_path output_path)
  = Py.Ok tt ->
  exists d rows,
    World.load (World.connect w db_path) db_path = Py.Ok d
    /\ Sqlite.select_all d "observations" = Py.Ok rows
    /\ snd (DbHarness.write_observations OBSERVATION_FIELD_NAMES w db_path output_path)
         !! output_path
       = Some (World.TextFile
                 (Csv.writerows
                    (OBSERVATION_FIELD_NAMES
                     :: map (map (fun v => Pandas.render (DbHarness.to_python v))) rows))).
Proof.
  unfold DbHarness.write_observations, DbHarness.fetchall.
  destruct (World.load _ _) as [d|e] eqn:Hd; simpl; [|discriminate].
  destruct (Sqlite.select_all d "observations") as [rows|e] eqn:Hrows; simpl;
    [|discriminate].
  intros H. exists d, rows. split; [reflexivity|]. split; [exact Hrows|].
  destruct (Pandas.DataFrame_from_rows _ _) as [df|e] eqn:Hdf; [|discriminate].
  apply DataFrame_from_rows_ok in Hdf. subst df. simpl.
  unfold World.write_text. rewrite lookup_insert_eq, to_csv_of_rows. reflexivity.
Qed.

(** The same for [write_key_values], with the header lookup_key, value. *)
Lemma write_key_values_header_and_rows (w : World.t) (db_path output_path : string) :
  fst (DbHarness.write_key_values w db_path output_path) = Py.Ok tt ->
  exists d rows,
    World.load (World.connect w db_path) db_path = Py.Ok d
    /\ Sqlite.select_all d "key_value_store" = Py.Ok rows
    /\ snd (DbHarness.write_key_values w db_path output_path) !! output_path
       = Some (World.TextFile
                 (Csv.writerows
                    (["lookup_key"; "value"]
                     :: map (map (fun v => Pandas.render (DbHarness.to_python v))) rows))).
Proof.
  unfold DbHarness.write_key_values, DbHarness.fetchall.
  destruct (World.load _ _) as [d|e] eqn:Hd; simpl; [|discriminate].
  destruct (Sqlite.select_all d "key_value_store") as [rows|e] eqn:Hrows; simpl;
    [|discriminate].
  intros H. exists d, rows. split; [reflexivity|]. split; [exact Hrows|].
  destruct (Pandas.DataFrame_from_rows _ _) as [df|e] eqn:Hdf; [|discriminate].
  apply DataFrame_from_rows_ok in Hdf. subst df. simpl.
  unfold World.write_text. rewrite lookup_insert_eq, to_csv_of_rows. reflexivity.
Qed.

(** C5 fails for [write_triples] on a store whose triples table is
    empty: the export succeeds and writes a single empty line, a header
    without any column name, where the two sibling exports write their
    headers for an empty table. *)
Theorem write_triples_empty_table_has_no_header :
  let w : World.t := <["stats.db" := World.Database Sample.db_without_triples]> ∅ in
  let triples := DbHarness.write_triples w "stats.db" "triples.csv" in
  let key_values := DbHarness.write_key_values w "stats.db" "key_value_store.csv" in
  fst triples = Py.Ok tt
  /\ snd triples !! "triples.csv" = Some (World.TextFile (String Ch.LF ""))
  /\ Csv.tokenize (String Ch.LF "") = Py.Ok []
  /\ fst key_values = Py.Ok tt
  /\ snd key_values !! "key_value_store.csv"
     = Some (World.TextFile ("lookup_key,value" +:+ String Ch.LF "")).
Proof. cbv zeta. repeat split; vm_compute; reflexivity. Qed.

(** ** Reading triples back *)

(** C10 fails for the empty list: [write_triples_list] writes a file that
    holds one empty line, and [read_triples_csv] raises on it, whatever
    conversion [read_csv] applies to columns. *)
Theorem empty_triples_list_does_not_read_back
    (V : Type) (convert_column : list string -> list V)
    (w : World.t) (path : string) :
  fst (DbHarness.write_triples_list w [] path) = Py.Ok tt
  /\ snd (DbHarness.write_triples_list w [] path) !! path
     = Some (World.TextFile (String Ch.LF ""))
  /\ DbHarness.read_triples_csv V convert_column
       (snd (DbHarness.write_triples_list w [] path)) path
     = Py.Raise (Py.EmptyDataError "No columns to parse from file").
Proof.
  unfold DbHarness.write_triples_list, DbHarness.read_triples_csv. simpl.
  unfold World.write_text. rewrite lookup_insert_eq. repeat split.
Qed.

(** ** Dump and restore *)

(** C1 fails on a store that holds a text with a carriage return: the
    dump is written and replayed without an error, and the restored row
    holds a line feed where the stored row holds the carriage return. *)
Theorem dump_restore_changes_carriage_return :
  let w0 : World.t := <["stats.db" := World.Database Sample.db_with_CR]> ∅ in
  let dumped := DbHarness.write_full_db_to_file w0 "stats.db" "dump.sql" in
  let restored := DbHarness.read_full_db_from_file (snd dumped) "restored.db" "dump.sql" in
  fst dumped = Py.Ok tt
  /\ fst restored = Py.Ok tt
  /\ (d ← World.load (snd restored) "stats.db" ; Sqlite.select_all d "triples")
     = Py.Ok [ [Sqlite.Text "c/p/1"; Sqlite.Text "description"; Sqlite.Text "";
                Sqlite.Text Sample.text_with_CR] ]
  /\ (d ← World.load (snd restored) "restored.db" ; Sqlite.select_all d "triples")
     = Py.Ok [ [Sqlite.Text "c/p/1"; Sqlite.Text "description"; Sqlite.Text "";
                Sqlite.Text Sample.text_with_LF] ]
  /\ Sample.text_with_CR <> Sample.text_with_LF.
Proof.
  cbv zeta. repeat split; try (vm_compute; reflexivity).
  vm_compute. discriminate.
Qed.

(** A store without carriage returns is restored as it was: the example
    store, with a quote, a comma, a semicolon and a line feed in its
    texts. *)
Example dump_restore_example :
  let d0 : Sqlite.db :=
    [ Sample.key_value_table [ [Sqlite.Text "k"; Sqlite.Null] ];
      Sample.triples_table
        [ [Sqlite.Text "c/p/1"; Sqlite.Text "name"; Sqlite.Text "";
           Sqlite.Text ("it's; here, " +:+ String Ch.LF "there")] ] ] in
  let w0 : World.t := <["stats.db" := World.Database d0]> ∅ in
  let dumped := DbHarness.write_full_db_to_file w0 "stats.db" "dump.sql" in
  let restored := DbHarness.read_full_db_from_file (snd dumped) "restored.db" "dump.sql" in
  fst restored = Py.Ok tt
  /\ snd restored !! "restored.db" = Some (World.Database d0).
Proof. cbv zeta. split; vm_compute; reflexivity. Qed.

(** *** Two runs on the same store *)

(** C4: run against the same database file, each of the three CSV
    exports has the same outcome, and when it succeeds it leaves the same
    bytes in the output file, whatever else the two runs find on disk. *)
Theorem csv_export_same_store_same_bytes
    (OBSERVATION_FIELD_NAMES : list string) (w1 w2 : World.t)
    (db_path output_path : string) :
  w1 !! db_path = w2 !! db_path ->
  Spec.same_bytes (DbHarness.write_observations OBSERVATION_FIELD_NAMES)
    w1 w2 db_path output_path
  /\ Spec.same_bytes DbHarness.write_triples w1 w2 db_path output_path
  /\ Spec.same_bytes DbHarness.write_key_values w1 w2 db_path output_path.
Proof.
  intros Hdb. unfold Spec.same_bytes. split; [|split].
  - rewrite !write_observations_via. now apply export_via_same_database.
  - rewrite !write_triples_via. now apply export_via_same_database.
  - rewrite !write_key_values_via. now apply export_via_same_database.
Qed.

Lemma csv_export_same_store_same_bytes_example :
  let w1 := Sample.world in
  let w2 : World.t :=
    <["observations.csv" := World.TextFile "stale"]>
      (<["notes.txt" := World.TextFile "unrelated"]> Sample.world) in
  w1 !! "stats.db" = w2 !! "stats.db"
  /\ Spec.same_bytes (DbHarness.write_observations Sample.field_names)
       w1 w2 "stats.db" "observations.csv"
  /\ Spec.same_bytes DbHarness.write_triples w1 w2 "stats.db" "observations.csv"
  /\ Spec.same_bytes DbHarness.write_key_values w1 w2 "stats.db" "observations.csv".
Proof.
  cbv zeta. split; [vm_compute; reflexivity|].
  apply (csv_export_same_store_same_bytes Sample.field_names Sample.world
           (<["observations.csv" := World.TextFile "stale"]>
              (<["notes.txt" := World.TextFile "unrelated"]> Sample.world))
           "stats.db" "observations.csv").
  vm_compute. reflexivity.
Defined.

Lemma write_observations_header_and_rows_example :
  exists d rows,
    World.load (World.connect Sample.world "stats.db") "stats.db" = Py.Ok d
    /\ Sqlite.select_all d "observations" = Py.Ok rows
    /\ snd (DbHarness.write_observations Sample.field_names Sample.world
              "stats.db" "observations.csv") !! "observations.csv"
       = Some (World.TextFile
                 (Csv.writerows
                    (Sample.field_names
                     :: map (map (fun v => Pandas.render (DbHarness.to_python v))) rows))).
Proof.
  apply (write_observations_header_and_rows Sample.field_names Sample.world
           "stats.db" "observations.csv").
  vm_compute. reflexivity.
Defined.

Lemma write_key_values_header_and_rows_example :
  let w : World.t := <["stats.db" := World.Database Sample.db_with_key_values]> ∅ in
  exists d rows,
    World.load (World.connect w "stats.db") "stats.db" = Py.Ok d
    /\ Sqlite.select_all d "key_value_store" = Py.Ok rows
    /\ snd (DbHarness.write_key_values w "stats.db" "key_value_store.csv")
         !! "key_value_store.csv"
       = Some (World.TextFile
                 (Csv.writerows
                    (["lookup_key"; "value"]
                     :: map (map (fun v => Pandas.render (DbHarness.to_python v))) rows))).
Proof.
  cbv zeta.
  apply (write_key_values_header_and_rows
           (<["stats.db" := World.Database Sample.db_with_key_values]> ∅)
           "stats.db" "key_value_store.csv").
  vm_compute. reflexivity.
Defined.

(** The file that this export leaves for the two records. *)
Example write_key_values_example :
  snd (DbHarness.write_key_values
         (<["stats.db" := World.Database Sample.db_with_key_values]> ∅)
         "stats.db" "key_value_store.csv") !! "key_value_store.csv"
  = Some (World.TextFile
            ("lookup_key,value" +:+ String Ch.LF
               ("StatVarGroups," +:+ String Ch.dquote ("groups, compressed"
                  +:+ String Ch.dquote (String Ch.LF
               ("Version," +:+ String Ch.LF "")))))).
Proof. vm_compute. reflexivity. Qed.

Lemma Triple_positional_astuple (V : Type) (row : list V) (t : Data.Triple V) :
  Data.Triple_positional row = Py.Ok t -> Data.astuple t = row.
Proof.
  destruct row as [|a [|b [|c [|d [|e row]]]]]; try discriminate.
  intros [= <-]. reflexivity.
Qed.

Lemma all_ok_Triple_positional (V : Type) (rows : list (list V))
    (ts : list (Data.Triple V)) :
  Sqlite.all_ok (map Data.Triple_positional rows) = Py.Ok ts ->
  map Data.astuple ts = rows.
Proof.
  revert ts. induction rows as [|r rows IH]; intros ts; simpl.
  - intros [= <-]. reflexivity.
  - destruct (Data.Triple_positional r) as [t|e] eqn:Ht; simpl; [|discriminate].
    destruct (Sqlite.all_ok _) as [ts'|e]; simpl; [|discriminate].
    intros [= <-]. simpl. f_equal.
    + now apply Triple_positional_astuple.
    + now apply IH.
Qed.

(** A successful [write_triples] writes the four field names as the
    first record and then the rows in their order when the table has a
    row, and a single empty line when it has none. *)
Theorem write_triples_header_and_rows (w : World.t) (db_path output_path : string) :
  fst (DbHarness.write_triples w db_path output_path) = Py.Ok tt ->
  exists d rows,
    World.load (World.connect w db_path) db_path = Py.Ok d
    /\ Sqlite.select_all d "triples" = Py.Ok rows
    /\ snd (DbHarness.write_triples w db_path output_path) !! output_path
       = Some (World.TextFile
                 match rows with
                 | [] => String Ch.LF ""
                 | _ =>
                     Csv.writerows
                       (["subject_id"; "predicate"; "object_id"; "object_value"]
                        :: map (map (fun v => Pandas.render (DbHarness.to_python v))) rows)
                 end).
Proof.
  unfold DbHarness.write_triples, DbHarness.fetchall.
  destruct (World.load _ _) as [d|e] eqn:Hd; simpl; [|discriminate].
  destruct (Sqlite.select_all d "triples") as [rows|e] eqn:Hrows; simpl;
    [|discriminate].
  destruct (Sqlite.all_ok _) as [ts|e] eqn:Hts; simpl; [|discriminate].
  intros _. exists d, rows. split; [reflexivity|]. split; [exact Hrows|].
  apply all_ok_Triple_positional in Hts.
  unfold World.write_text. rewrite lookup_insert_eq. do 2 f_equal.
  destruct rows as [|r rows].
  - destruct ts; [reflexivity|discriminate].
  - destruct ts as [|t ts]; [discriminate|].
    unfold Pandas.DataFrame_from_triples.
    change (Data.TRIPLE_FIELD_NAMES)
      with ["subject_id"; "predicate"; "object_id"; "object_value"].
    rewrite Hts. apply to_csv_of_rows.
Qed.

Lemma write_triples_header_and_rows_example :
  exists d rows,
    World.load (World.connect Sample.world "stats.db") "stats.db" = Py.Ok d
    /\ Sqlite.select_all d "triples" = Py.Ok rows
    /\ snd (DbHarness.write_triples Sample.world "stats.db" "triples.csv") !! "triples.csv"
       = Some (World.TextFile
                 match rows with
                 | [] => String Ch.LF ""
                 | _ =>
                     Csv.writerows
                       (["subject_id"; "predicate"; "object_id"; "object_value"]
                        :: map (map (fun v => Pandas.render (DbHarness.to_python v))) rows)
                 end).
Proof.
  apply (write_triples_header_and_rows Sample.world "stats.db" "triples.csv").
  vm_compute. reflexivity.
Defined.

(** ** Strings: appending *)

Lemma string_app_nil_l (s : string) : "" +:+ s = s.
Proof. reflexivity. Qed.

Lemma string_app_cons (c : ascii) (a b : string) :
  String c a +:+ b = String c (a +:+ b).
Proof. reflexivity. Qed.

Lemma string_app_nil_r (s : string) : s +:+ "" = s.
Proof.
  induction s as [|c s IH]; [reflexivity|].
  rewrite string_app_cons. f_equal. exact IH.
Qed.

Lemma string_app_assoc (a b c : string) : (a +:+ b) +:+ c = a +:+ (b +:+ c).
Proof.
  induction a as [|x a IH]; [reflexivity|].
  rewrite !string_app_cons. f_equal. exact IH.
Qed.

Lemma snoc_app (cur : string) (c : ascii) (rest : string) :
  Str.snoc cur c +:+ rest = cur +:+ String c rest.
Proof. unfold Str.snoc. now rewrite string_app_assoc. Qed.

Lemma free_of_nil (P : ascii -> bool) : free_of P "".
Proof. reflexivity. Qed.

Lemma free_of_cons (P : ascii -> bool) (c : ascii) (s : string) :
  free_of P (String c s) <-> P c = false /\ free_of P s.
Proof. unfold free_of. simpl. apply orb_false_iff. Qed.

Lemma free_of_app (P : ascii -> bool) (a b : string) :
  free_of P (a +:+ b) <-> free_of P a /\ free_of P b.
Proof.
  induction a as [|c a IH].
  - rewrite string_app_nil_l. split; [intros H; split; [reflexivity|exact H] | tauto].
  - rewrite string_app_cons, !free_of_cons, IH. tauto.
Qed.


(** ** Cutting a script into statements *)






Lemma one_statement_plain (s : string) : free_of is_mark s -> one_statement s.
Proof.
  induction s as [|c s IH]; [split; reflexivity|].
  rewrite free_of_cons. intros [Hc Hs]. destruct (IH Hs) as [H1 H2].
  unfold is_mark in Hc. apply orb_false_iff in Hc as [Hc Hd].
  apply orb_false_iff in Hc as [Hc Hq].
  split; simpl; rewrite ?Hc, ?Hq, ?Hd; simpl; assumption.
Qed.








(** ** The text of a dump *)

Lemma dump_text_nil : DbHarness.dump_text [] = "".
Proof. reflexivity. Qed.

Lemma concat_empty_cons (x : string) (xs : list string) :
  String.concat "" (x :: xs) = x +:+ String.concat "" xs.
Proof.
  destruct xs as [|y xs]; simpl; [now rewrite string_app_nil_r | reflexivity].
Qed.

Lemma dump_text_cons (line : string) (lines : list string) :
  DbHarness.dump_text (line :: lines)
  = line +:+ String Ch.LF (DbHarness.dump_text lines).
Proof.
  unfold DbHarness.dump_text. rewrite map_cons, concat_empty_cons.
  now rewrite string_app_assoc.
Qed.

Lemma dump_text_app (l1 l2 : list string) :
  DbHarness.dump_text (l1 ++ l2) = DbHarness.dump_text l1 +:+ DbHarness.dump_text l2.
Proof.
  induction l1 as [|x l1 IH]; [reflexivity|].
  rewrite <- app_comm_cons, !dump_text_cons, IH.
  now rewrite string_app_assoc.
Qed.


(** ** Reading statements back *)




Lemma string_app_single (c : ascii) (t : string) : String c "" +:+ t = String c t.
Proof. reflexivity. Qed.





Lemma join_cons (sep x : string) (l : list string) :
  l <> [] -> Str.join sep (x :: l) = x +:+ sep +:+ Str.join sep l.
Proof. destruct l; [congruence | reflexivity]. Qed.



(** ** Executing the statements of a dump *)















(** ** The whole dump *)









(** ** Ordering by name *)





(** ** Dump and restore through the files *)








(** ** The tokenizer on the text the writer produces *)

Lemma run_app (s : string) :
  forall (st : Csv.state) (b : Csv.buffers) (rest : string),
    Csv.run st b (s +:+ rest) = Csv.run (fst (steps st b s)) (snd (steps st b s)) rest.
Proof.
  induction s as [|c s IH]; intros st b rest; [reflexivity|].
  rewrite string_app_cons. simpl. destruct (Csv.step st b c) as [st' b']. apply IH.
Qed.

Lemma steps_app (s : string) :
  forall (st : Csv.state) (b : Csv.buffers) (rest : string),
    steps st b (s +:+ rest) = steps (fst (steps st b s)) (snd (steps st b s)) rest.
Proof.
  induction s as [|c s IH]; intros st b rest; [reflexivity|].
  rewrite string_app_cons. simpl. destruct (Csv.step st b c) as [st' b']. apply IH.
Qed.

Lemma grown_nil (b : Csv.buffers) : grown b "" = b.
Proof. unfold grown. rewrite string_app_nil_r. destruct b; reflexivity. Qed.

Lemma grown_push (b : Csv.buffers) (c : ascii) (s : string) :
  grown (Csv.push c b) s = grown b (String c s).
Proof. unfold grown, Csv.push. simpl. now rewrite snoc_app. Qed.

Lemma plain_inv (c : ascii) :
  plain c = true ->
  Ch.is_LF c = false /\ Ch.is_CR c = false
  /\ Ascii.eqb c Csv.delimiter = false /\ Ascii.eqb c Csv.quotechar = false.
Proof.
  unfold plain, Csv.special, Csv.lineterminator. simpl. unfold Ch.is_LF.
  rewrite orb_false_r.
  destruct (Ascii.eqb c Csv.delimiter), (Ascii.eqb c Csv.quotechar),
    (Ascii.eqb c Ch.LF), (Ch.is_CR c); simpl; intros H; try discriminate; auto.
Qed.

Lemma step_plain (st : Csv.state) (b : Csv.buffers) (c : ascii) :
  unquoted st = true -> plain c = true ->
  exists st', Csv.step st b c = (st', Csv.push c b) /\ unquoted st' = true
              /\ st' <> Csv.START_RECORD /\ st' <> Csv.START_FIELD.
Proof.
  intros Hst Hc. destruct (plain_inv c Hc) as (H1 & H2 & H3 & H4).
  destruct st; try discriminate; simpl;
    unfold Csv.step_start_record, Csv.step_start_field, Csv.step_in_field;
    rewrite ?H1, ?H2, ?H3, ?H4; try destruct (Csv.is_blank c);
    rewrite ?H1, ?H2, ?H3, ?H4; eexists; (split; [reflexivity|]); repeat split;
    discriminate.
Qed.

Lemma all_plain_write_field (f : string) :
  Str.contains_char Csv.special f = false -> free_of Ch.is_CR f -> all_plain f.
Proof.
  induction f as [|c f IH]; [reflexivity|].
  simpl. intros H1 H2. apply orb_false_iff in H1 as [H1 H1'].
  apply free_of_cons in H2 as [H2 H2'].
  apply free_of_cons. split; [|now apply IH].
  unfold plain. now rewrite H1, H2.
Qed.

Lemma steps_plain (f : string) :
  all_plain f ->
  forall (st : Csv.state) (b : Csv.buffers),
    unquoted st = true ->
    exists st', steps st b f = (st', grown b f) /\ unquoted st' = true
                /\ (st' = st \/ (st' <> Csv.START_RECORD /\ st' <> Csv.START_FIELD)).
Proof.
  induction f as [|c f IH]; intros Hf st b Hst.
  - exists st. rewrite grown_nil. auto.
  - apply free_of_cons in Hf as [Hc Hf]. apply negb_false_iff in Hc.
    destruct (step_plain st b c Hst Hc) as (st1 & Hstep & Hu & Hn1 & Hn2).
    destruct (IH Hf st1 (Csv.push c b) Hu) as (st' & Hsteps & Hu' & Hor).
    exists st'. simpl. rewrite Hstep, Hsteps, grown_push.
    split; [reflexivity|]. split; [assumption|]. right.
    destruct Hor as [->|H]; [split; assumption | exact H].
Qed.

Lemma steps_plain_inner (f : string) :
  all_plain f ->
  forall (st : Csv.state) (b : Csv.buffers),
    st = Csv.START_FIELD \/ st = Csv.IN_FIELD ->
    exists st', steps st b f = (st', grown b f)
                /\ (st' = Csv.START_FIELD \/ st' = Csv.IN_FIELD).
Proof.
  induction f as [|c f IH]; intros Hf st b Hst.
  - exists st. rewrite grown_nil. auto.
  - apply free_of_cons in Hf as [Hc Hf]. apply negb_false_iff in Hc.
    destruct (plain_inv c Hc) as (H1 & H2 & H3 & H4).
    assert (Hstep : Csv.step st b c = (Csv.IN_FIELD, Csv.push c b)).
    { destruct Hst as [->| ->]; simpl;
        unfold Csv.step_start_field, Csv.step_in_field;
        now rewrite ?H1, ?H2, ?H3, ?H4. }
    destruct (IH Hf Csv.IN_FIELD (Csv.push c b)) as (st' & Hsteps & Hor); [auto|].
    exists st'. simpl. rewrite Hstep, Hsteps, grown_push. auto.
Qed.

(** Inside quotes: up to the closing quote. *)
Lemma steps_in_quoted (f : string) :
  forall b : Csv.buffers,
    steps Csv.IN_QUOTED_FIELD b
      (Str.double_char Csv.quotechar f +:+ String Csv.quotechar "")
    = (Csv.QUOTE_IN_QUOTED_FIELD, grown b f).
Proof.
  induction f as [|c f IH]; intros b.
  - rewrite string_app_nil_l, grown_nil. reflexivity.
  - simpl Str.double_char. destruct (Ascii.eqb c Csv.quotechar) eqn:E.
    + apply Ascii.eqb_eq in E. subst c.
      rewrite !string_app_cons. simpl. rewrite IH, grown_push. reflexivity.
    + rewrite string_app_cons. simpl. rewrite E, IH, grown_push. reflexivity.
Qed.

Lemma steps_quoted (f : string) (st : Csv.state) (b : Csv.buffers) :
  st = Csv.START_RECORD \/ st = Csv.START_FIELD ->
  steps st b (Csv.quoted f) = (Csv.QUOTE_IN_QUOTED_FIELD, grown b f).
Proof.
  intros Hst. unfold Csv.quoted. rewrite string_app_cons.
  assert (Hstep : Csv.step st b Csv.quotechar = (Csv.IN_QUOTED_FIELD, b))
    by (destruct Hst as [->| ->]; reflexivity).
  simpl. rewrite Hstep. apply steps_in_quoted.
Qed.

(** A written field, first of its line. *)
Lemma steps_write_field_first (f : string) (b : Csv.buffers) :
  free_of Ch.is_CR f ->
  exists st', steps Csv.START_RECORD b (Csv.write_field f) = (st', grown b f)
              /\ after_field st' = true.
Proof.
  intros Hcr. unfold Csv.write_field.
  destruct (Str.contains_char Csv.special f) eqn:E.
  - exists Csv.QUOTE_IN_QUOTED_FIELD. split; [|reflexivity].
    apply steps_quoted. auto.
  - destruct (steps_plain f (all_plain_write_field f E Hcr) Csv.START_RECORD b eq_refl)
      as (st' & Hsteps & Hu & _).
    exists st'. split; [exact Hsteps|]. destruct st'; try discriminate; reflexivity.
Qed.

(** A written field after a delimiter. *)
Lemma steps_write_field_inner (f : string) (b : Csv.buffers) :
  free_of Ch.is_CR f ->
  exists st', steps Csv.START_FIELD b (Csv.write_field f) = (st', grown b f)
              /\ after_inner_field st' = true.
Proof.
  intros Hcr. unfold Csv.write_field.
  destruct (Str.contains_char Csv.special f) eqn:E.
  - exists Csv.QUOTE_IN_QUOTED_FIELD. split; [|reflexivity].
    apply steps_quoted. auto.
  - destruct (steps_plain_inner f (all_plain_write_field f E Hcr) Csv.START_FIELD b)
      as (st' & Hsteps & Hor); [auto|].
    exists st'. split; [exact Hsteps|]. destruct Hor as [->| ->]; reflexivity.
Qed.

Lemma step_delimiter (st : Csv.state) (b : Csv.buffers) :
  after_field st = true ->
  Csv.step st b Csv.delimiter = (Csv.START_FIELD, Csv.end_field b).
Proof. destruct st; try discriminate; reflexivity. Qed.

Lemma step_LF (st : Csv.state) (b : Csv.buffers) :
  after_inner_field st = true ->
  Csv.step st b Ch.LF = (Csv.START_RECORD, Csv.end_line (Csv.end_field b)).
Proof. destruct st; try discriminate; reflexivity. Qed.

Lemma end_field_grown (lines : list (list string)) (line : list string) (f : string) :
  Csv.end_field (grown (between lines line) f) = between lines (line ++ [f]).
Proof. reflexivity. Qed.

Lemma end_line_between (lines : list (list string)) (line : list string) :
  Csv.end_line (between lines line) = between (lines ++ [line]) [].
Proof. reflexivity. Qed.

(** The fields after the first, up to the end of the line. *)
Lemma steps_inner_fields (fs : list string) :
  fs <> [] ->
  Forall (free_of Ch.is_CR) fs ->
  forall (lines : list (list string)) (line : list string),
    steps Csv.START_FIELD (between lines line)
      (Str.join (String Csv.delimiter "") (map Csv.write_field fs) +:+ Csv.lineterminator)
    = (Csv.START_RECORD, between (lines ++ [line ++ fs]) []).
Proof.
  induction fs as [|f fs IH]; [congruence|]. intros _ Hcr lines line.
  apply Forall_cons in Hcr as [Hf Hcr].
  destruct (steps_write_field_inner f (between lines line) Hf) as (st' & Hsteps & Hst').
  destruct fs as [|f' fs].
  - unfold Str.join. simpl String.concat.
    rewrite steps_app, Hsteps. simpl fst. simpl snd.
    unfold Csv.lineterminator. simpl steps.
    rewrite (step_LF st' _ Hst'), end_field_grown, end_line_between. reflexivity.
  - rewrite (map_cons _ f), join_cons by discriminate.
    rewrite !string_app_assoc, string_app_single.
    rewrite steps_app, Hsteps. simpl fst. simpl snd.
    assert (Haf : after_field st' = true) by (destruct st'; try discriminate; reflexivity).
    change (steps st' (grown (between lines line) f)
              (String Csv.delimiter
                 (Str.join (String Csv.delimiter "") (map Csv.write_field (f' :: fs))
                  +:+ Csv.lineterminator)))
      with (let (st1, b1) := Csv.step st' (grown (between lines line) f) Csv.delimiter in
            steps st1 b1
              (Str.join (String Csv.delimiter "") (map Csv.write_field (f' :: fs))
               +:+ Csv.lineterminator)).
    rewrite (step_delimiter st' _ Haf), end_field_grown.
    rewrite IH by (assumption || discriminate).
    now rewrite <- app_assoc.
Qed.

(** A line of at least two fields. *)
Lemma steps_writerow (f : string) (fs : list string) (lines : list (list string)) :
  fs <> [] ->
  Forall (free_of Ch.is_CR) (f :: fs) ->
  steps Csv.START_RECORD (between lines []) (Csv.writerow (f :: fs))
  = (Csv.START_RECORD, between (lines ++ [f :: fs]) []).
Proof.
  intros Hfs Hcr. apply Forall_cons in Hcr as [Hf Hcr].
  assert (Hrow : Csv.writerow (f :: fs)
                 = Csv.write_field f
                   +:+ String Csv.delimiter
                         (Str.join (String Csv.delimiter "") (map Csv.write_field fs)
                          +:+ Csv.lineterminator)).
  { unfold Csv.writerow. destruct fs as [|f' fs]; [congruence|].
    destruct f; rewrite (map_cons _ _ (f' :: fs)), join_cons by discriminate;
      now rewrite !string_app_assoc, string_app_single. }
  rewrite Hrow.
  destruct (steps_write_field_first f (between lines []) Hf) as (st' & Hsteps & Hst').
  rewrite steps_app, Hsteps. simpl fst. simpl snd.
  change (steps st' (grown (between lines []) f)
            (String Csv.delimiter
               (Str.join (String Csv.delimiter "") (map Csv.write_field fs)
                +:+ Csv.lineterminator)))
    with (let (st1, b1) := Csv.step st' (grown (between lines []) f) Csv.delimiter in
          steps st1 b1
            (Str.join (String Csv.delimiter "") (map Csv.write_field fs)
             +:+ Csv.lineterminator)).
  rewrite (step_delimiter st' _ Hst'), end_field_grown.
  now rewrite steps_inner_fields.
Qed.

Lemma steps_writerows (rows : list (list string)) :
  Forall readable rows ->
  forall lines : list (list string),
    steps Csv.START_RECORD (between lines []) (Csv.writerows rows)
    = (Csv.START_RECORD, between (lines ++ rows) []).
Proof.
  intros H. induction H as [|row rows [Hlen Hcr] _ IH]; intros lines.
  - now rewrite app_nil_r.
  - unfold Csv.writerows in *. rewrite map_cons, concat_empty_cons.
    destruct row as [|f [|f' fs]]; simpl in Hlen; try lia.
    rewrite steps_app, steps_writerow by (assumption || discriminate).
    simpl fst. simpl snd. rewrite IH. now rewrite <- app_assoc.
Qed.

Theorem tokenize_writerows (rows : list (list string)) :
  Forall readable rows -> Csv.tokenize (Csv.writerows rows) = Py.Ok rows.
Proof.
  intros H. unfold Csv.tokenize.
  rewrite <- (string_app_nil_r (Csv.writerows rows)), run_app.
  change {| Csv.field := ""; Csv.line := []; Csv.lines := [] |} with (between [] []).
  now rewrite (steps_writerows rows H []).
Qed.

(** ** Reading a written list of triples *)

Lemma lookup_map {A B : Type} (f : A -> B) (l : list A) (j : nat) :
  map f l !! j = f <$> (l !! j).
Proof.
  revert j. induction l as [|x l IH]; intros [|j]; simpl; try reflexivity. apply IH.
Qed.

Lemma mapM_seq {A B : Type} (F : nat -> option B) (G : A -> B) (l : list A) :
  forall k : nat,
    (forall j x, l !! j = Some x -> F (k + j) = Some (G x)) ->
    mapM F (seq k (length l)) = Some (map G l).
Proof.
  induction l as [|x l IH]; intros k H; [reflexivity|].
  simpl. rewrite <- (Nat.add_0_r k) at 1. rewrite (H 0 x eq_refl). simpl.
  rewrite (IH (S k)).
  - reflexivity.
  - intros j y Hj. replace (S k + j) with (k + S j) by lia. now apply (H (S j)).
Qed.

Lemma Triple_keywords_record {V : Type} (t : Data.Triple V) :
  Data.Triple_keywords (record_of t) = Py.Ok t.
Proof. destruct t. reflexivity. Qed.

Lemma all_ok_Triple_keywords {V : Type} (ts : list (Data.Triple V)) :
  Sqlite.all_ok (map Data.Triple_keywords (map record_of ts)) = Py.Ok ts.
Proof.
  induction ts as [|t ts IH]; [reflexivity|].
  rewrite !map_cons. cbn [Sqlite.all_ok].
  rewrite Triple_keywords_record, IH. reflexivity.
Qed.

Lemma to_records_triples {V : Type} (ts : list (Data.Triple V)) :
  Pandas.to_records V Data.TRIPLE_FIELD_NAMES
    [map Data.subject_id ts; map Data.predicate ts;
     map Data.object_id ts; map Data.object_value ts] (length ts)
  = Some (map record_of ts).
Proof.
  unfold Pandas.to_records. apply (mapM_seq _ record_of ts 0).
  intros j t Hj. simpl. rewrite !lookup_map, Hj. reflexivity.
Qed.

Lemma column_triple_rows (ts : list (Data.Triple Pandas.cell)) :
  Pandas.column 0 (map triple_row ts) = map (fun t => Pandas.render (Data.subject_id t)) ts
  /\ Pandas.column 1 (map triple_row ts) = map (fun t => Pandas.render (Data.predicate t)) ts
  /\ Pandas.column 2 (map triple_row ts) = map (fun t => Pandas.render (Data.object_id t)) ts
  /\ Pandas.column 3 (map triple_row ts)
     = map (fun t => Pandas.render (Data.object_value t)) ts.
Proof. unfold Pandas.column. rewrite !map_map. repeat split. Qed.

Lemma forallb_length_triple_rows (ts : list (Data.Triple Pandas.cell)) :
  forallb (fun r => Nat.eqb (length r) 4) (map triple_row ts) = true.
Proof. induction ts as [|t ts IH]; [reflexivity|]. simpl. exact IH. Qed.

(** A list of triples that is not empty is read back as it was written
    when no field holds a carriage return and the reader's conversion
    gives each column back as the values that were written. *)
Theorem triples_list_reads_back_when_not_empty
    (convert_column : list string -> list Pandas.cell)
    (w : World.t) (path : string) (ts : list (Data.Triple Pandas.cell)) :
  ts <> [] ->
  Forall (fun t => Forall (free_of Ch.is_CR) (triple_row t)) ts ->
  (forall field,
     In field [Data.subject_id; Data.predicate; Data.object_id; Data.object_value] ->
     convert_column (map (fun t => Pandas.render (field t)) ts) = map field ts) ->
  DbHarness.read_triples_csv Pandas.cell convert_column
    (snd (DbHarness.write_triples_list w ts path)) path
  = Py.Ok ts.
Proof.
  intros Hne Hcr Hconv.
  unfold DbHarness.write_triples_list, DbHarness.read_triples_csv. simpl snd.
  unfold World.write_text. rewrite lookup_insert_eq.
  assert (Hcsv : Pandas.to_csv (Pandas.DataFrame_from_triples ts)
                 = Csv.writerows (Data.TRIPLE_FIELD_NAMES :: map triple_row ts)).
  { destruct ts as [|t ts]; [congruence|].
    unfold Pandas.to_csv, Pandas.DataFrame_from_triples. cbn [Pandas.columns Pandas.data].
    now rewrite map_map. }
  rewrite Hcsv.
  change (Py.Ok (Csv.writerows (Data.TRIPLE_FIELD_NAMES :: map triple_row ts))
          ≫= (fun text => records ← Pandas.read_csv_records Pandas.cell convert_column text ;
                           Sqlite.all_ok (map Data.Triple_keywords records)))
    with (records ← Pandas.read_csv_records Pandas.cell convert_column
                      (Csv.writerows (Data.TRIPLE_FIELD_NAMES :: map triple_row ts)) ;
          Sqlite.all_ok (map Data.Triple_keywords records)).
  unfold Pandas.read_csv_records. rewrite tokenize_writerows.
  - cbn [mbind result_bind Py.bind].
    change (length Data.TRIPLE_FIELD_NAMES) with 4.
    rewrite forallb_length_triple_rows.
    destruct (column_triple_rows ts) as (H0 & H1 & H2 & H3).
    cbn [seq map]. rewrite H0, H1, H2, H3.
    rewrite !Hconv by (simpl; auto).
    rewrite length_map, to_records_triples.
    apply all_ok_Triple_keywords.
  - apply Forall_cons. split.
    + split; [simpl; lia|]. repeat constructor.
    + apply Forall_forall. intros row Hrow.
      apply list_elem_of_In, in_map_iff in Hrow. destruct Hrow as (t & <- & Ht).
      split; [simpl; lia|].
      rewrite Forall_forall in Hcr. apply Hcr. now apply list_elem_of_In.
Qed.

Lemma triples_list_reads_back_when_not_empty_example :
  let triples : list (Data.Triple Pandas.cell) :=
    [ {| Data.subject_id := Some "c/p/1"; Data.predicate := Some "name";
         Data.object_id := Some ""; Data.object_value := Some "Provenance, first" |};
      {| Data.subject_id := Some "c/p/1"; Data.predicate := Some "typeOf";
         Data.object_id := Some "Provenance"; Data.object_value := Some "" |} ] in
  DbHarness.read_triples_csv Pandas.cell (map Some)
    (snd (DbHarness.write_triples_list ∅ triples "triples.csv")) "triples.csv"
  = Py.Ok triples.
Proof.
  cbv zeta.
  apply (triples_list_reads_back_when_not_empty (map Some) ∅ "triples.csv").
  - discriminate.
  - repeat constructor.
  - intros field [<-|[<-|[<-|[<-|[]]]]]; reflexivity.
Defined.

(** ** compare_files as a relation on paths *)

Lemma compare_files_cases (f : FS.fs) (a b : string) (message : option string) :
  Harness.compare_files f a b message
  = match f !! a, f !! b with
    | None, None => Py.Ok tt
    | Some got, Some want =>
        if Utf8.valid got && Utf8.valid want
        then Harness.assertEqual_str (FS.universal_newlines got)
               (FS.universal_newlines want) message
        else Py.Raise Py.UnicodeDecodeError
    | _, _ => Py.Raise (Py.AssertionError (Some (Harness.existence_message message)))
    end.
Proof.
  unfold Harness.compare_files, FS.path_exists, FS.read_text.
  destruct (f !! a) as [got|], (f !! b) as [want|]; try reflexivity.
  destruct (Utf8.valid got), (Utf8.valid want); reflexivity.
Qed.

(** On the paths of a file system, [compare_files] is symmetric and
    transitive, whatever the messages: which path is the actual one and
    which the expected one does not change the verdict, and two paths
    that compare equal to a third compare equal.  A path compares equal
    to itself exactly when it does not exist or holds text that can be
    decoded. *)
Theorem compare_files_equivalence (f : FS.fs) :
  (forall a m,
     Harness.passes (Harness.compare_files f a a m)
     <-> f !! a = None \/ exists bytes, f !! a = Some bytes /\ Utf8.valid bytes = true)
  /\ (forall a b m1 m2,
        Harness.passes (Harness.compare_files f a b m1) ->
        Harness.passes (Harness.compare_files f b a m2))
  /\ (forall a b c m1 m2 m3,
        Harness.passes (Harness.compare_files f a b m1) ->
        Harness.passes (Harness.compare_files f b c m2) ->
        Harness.passes (Harness.compare_files f a c m3)).
Proof.
  unfold Harness.passes. split; [|split].
  - intros a m. rewrite compare_files_cases. destruct (f !! a) as [x|].
    + destruct (Utf8.valid x) eqn:V; simpl.
      * rewrite assertEqual_str_passes. split; [|reflexivity].
        intros _. right. now exists x.
      * split; [discriminate|]. intros [H|(y & [= <-] & H)]; congruence.
    + split; [now left|reflexivity].
  - intros a b m1 m2. rewrite !compare_files_cases.
    destruct (f !! a) as [x|], (f !! b) as [y|]; try discriminate; try reflexivity.
    destruct (Utf8.valid x), (Utf8.valid y); simpl; try discriminate.
    rewrite !assertEqual_str_passes. congruence.
  - intros a b c m1 m2 m3. rewrite !compare_files_cases.
    destruct (f !! a) as [x|], (f !! b) as [y|], (f !! c) as [z|];
      try discriminate; try reflexivity.
    destruct (Utf8.valid x), (Utf8.valid y), (Utf8.valid z); simpl;
      try discriminate.
    rewrite !assertEqual_str_passes. congruence.
Qed.

(** ** Sessions: several invocations in one process *)

Lemma session_step (c : Main.collaborators) (p : Proc.state) (call : Session.call) :
  Session.step c p call
  = {| Proc.freezes := Proc.freezes p;
       Proc.gzip_time := Session.gzip_after (Proc.gzip_time p) [call];
       Proc.trace := Proc.trace p ++ Session.events c (Proc.freezes p) call |}.
Proof.
  destruct call as [FLAGS|timestamp]; simpl.
  - rewrite main_spec. reflexivity.
  - unfold GzipTime.use_fake_gzip_time, Proc.set_gzip_time. now rewrite app_nil_r.
Qed.

(** Any sequence of invocations of [main] and of [use_fake_gzip_time]
    leaves the freezegun overrides as they were at the start, whatever
    the collaborators do (a text that does not parse, a logger, a
    constructor or a Runner that raises); every invocation of [main] met
    the same overrides at entry and added its own calls to the trace;
    and gzip's time source is the one the last [use_fake_gzip_time]
    installed. *)
Theorem session_leaves_no_freeze
    (c : Main.collaborators) (calls : list Session.call) (p : Proc.state) :
  Session.exec c p calls
  = {| Proc.freezes := Proc.freezes p;
       Proc.gzip_time := Session.gzip_after (Proc.gzip_time p) calls;
       Proc.trace := Proc.trace p
         ++ flat_map (Session.events c (Proc.freezes p)) calls |}.
Proof.
  revert p. induction calls as [|call calls IH]; intros p.
  - simpl. rewrite app_nil_r. destruct p; reflexivity.
  - unfold Session.exec in *. simpl fold_left. rewrite IH, session_step. simpl.
    now rewrite <- app_assoc.
Qed.

(** ** What an export writes and what it leaves alone *)







(** ** NULL and the empty text *)

Lemma render_blank (v : Sqlite.value) :
  Pandas.render (DbHarness.to_python (Nulls.blank v))
  = Pandas.render (DbHarness.to_python v).
Proof. destruct v; reflexivity. Qed.

Lemma render_blank_row (r : list Sqlite.value) :
  map Pandas.render (map DbHarness.to_python (map Nulls.blank r))
  = map Pandas.render (map DbHarness.to_python r).
Proof. rewrite !map_map. apply map_ext. intros v. apply render_blank. Qed.

Lemma render_blank_rows (rows : list (list Sqlite.value)) :
  map (map Pandas.render) (map (map DbHarness.to_python) (map (map Nulls.blank) rows))
  = map (map Pandas.render) (map (map DbHarness.to_python) rows).
Proof.
  rewrite !map_map. apply map_ext. intros r. apply render_blank_row.
Qed.

Lemma find_blank_nulls (d : Sqlite.db) (n : string) :
  Sqlite.find (Nulls.blank_nulls d) n = Nulls.blank_table <$> Sqlite.find d n.
Proof.
  induction d as [|t d IH]; [reflexivity|].
  simpl. destruct (String.eqb (Sqlite.name t) n); [reflexivity | exact IH].
Qed.

Lemma select_all_blank_nulls (d : Sqlite.db) (n : string) :
  Sqlite.select_all (Nulls.blank_nulls d) n
  = match Sqlite.select_all d n with
    | Py.Ok rows => Py.Ok (map (map Nulls.blank) rows)
    | Py.Raise e => Py.Raise e
    end.
Proof.
  unfold Sqlite.select_all. rewrite find_blank_nulls.
  destruct (Sqlite.find d n); reflexivity.
Qed.

Lemma forallb_length_blank (k : nat) (rows : list (list Sqlite.value)) :
  forallb (fun r => Nat.eqb (length r) k)
    (map (map DbHarness.to_python) (map (map Nulls.blank) rows))
  = forallb (fun r => Nat.eqb (length r) k) (map (map DbHarness.to_python) rows).
Proof.
  induction rows as [|r rows IH]; [reflexivity|].
  simpl. rewrite IH, !length_map. reflexivity.
Qed.

Lemma DataFrame_from_rows_blank (names : list string) (rows : list (list Sqlite.value)) :
  Nulls.alike
    (Pandas.DataFrame_from_rows
       (map (map DbHarness.to_python) (map (map Nulls.blank) rows)) names)
    (Pandas.DataFrame_from_rows (map (map DbHarness.to_python) rows) names).
Proof.
  unfold Pandas.DataFrame_from_rows.
  destruct rows as [|r rows]; [unfold Nulls.alike; reflexivity|].
  pose proof (forallb_length_blank (length names) (r :: rows)) as Hlen.
  pose proof (render_blank_rows (r :: rows)) as Hrows.
  rewrite !map_cons in *. rewrite Hlen. clear Hlen.
  destruct (forallb _ _); [|unfold Nulls.alike; reflexivity].
  unfold Nulls.alike, Pandas.to_csv. cbn [Pandas.columns Pandas.data].
  rewrite !map_cons in *. rewrite Hrows. reflexivity.
Qed.

Lemma Triple_positional_blank (rows : list (list Sqlite.value)) :
  match Sqlite.all_ok (map Data.Triple_positional
                         (map (map DbHarness.to_python) (map (map Nulls.blank) rows))),
        Sqlite.all_ok (map Data.Triple_positional (map (map DbHarness.to_python) rows))
  with
  | Py.Ok ts1, Py.Ok ts2 =>
      map Data.astuple ts1 = map (map DbHarness.to_python) (map (map Nulls.blank) rows)
      /\ map Data.astuple ts2 = map (map DbHarness.to_python) rows
  | Py.Raise e1, Py.Raise e2 => e1 = e2
  | _, _ => False
  end.
Proof.
  induction rows as [|r rows IH]; [split; reflexivity|].
  rewrite !map_cons. cbn [Sqlite.all_ok].
  destruct r as [|a [|b [|c [|d [|e r]]]]]; try reflexivity.
  cbn [map Data.Triple_positional mbind result_bind Py.bind].
  destruct (Sqlite.all_ok _) as [ts1|e1], (Sqlite.all_ok _) as [ts2|e2];
    simpl; try exact IH; try contradiction.
  destruct IH as [H1 H2]. split; f_equal; assumption.
Qed.

Lemma observations_frame_blank (OBSERVATION_FIELD_NAMES : list string) (d : Sqlite.db) :
  Nulls.alike (Spec.observations_frame OBSERVATION_FIELD_NAMES (Py.Ok (Nulls.blank_nulls d)))
    (Spec.observations_frame OBSERVATION_FIELD_NAMES (Py.Ok d)).
Proof.
  unfold Spec.observations_frame. cbn [mbind result_bind Py.bind].
  rewrite select_all_blank_nulls.
  destruct (Sqlite.select_all d "observations") as [rows|e];
    cbn [mbind result_bind Py.bind]; [|unfold Nulls.alike; reflexivity].
  apply DataFrame_from_rows_blank.
Qed.

Lemma key_values_frame_blank (d : Sqlite.db) :
  Nulls.alike (Spec.key_values_frame (Py.Ok (Nulls.blank_nulls d)))
    (Spec.key_values_frame (Py.Ok d)).
Proof.
  unfold Spec.key_values_frame. cbn [mbind result_bind Py.bind].
  rewrite select_all_blank_nulls.
  destruct (Sqlite.select_all d "key_value_store") as [rows|e];
    cbn [mbind result_bind Py.bind]; [|unfold Nulls.alike; reflexivity].
  apply DataFrame_from_rows_blank.
Qed.

Lemma DataFrame_from_triples_astuple (ts : list (Data.Triple Pandas.cell)) :
  Pandas.to_csv (Pandas.DataFrame_from_triples ts)
  = match ts with
    | [] => Csv.writerows [[]]
    | _ => Csv.writerows (Data.TRIPLE_FIELD_NAMES
                          :: map (map Pandas.render) (map Data.astuple ts))
    end.
Proof. destruct ts; reflexivity. Qed.

Lemma triples_frame_blank (d : Sqlite.db) :
  Nulls.alike (Spec.triples_frame (Py.Ok (Nulls.blank_nulls d)))
    (Spec.triples_frame (Py.Ok d)).
Proof.
  unfold Spec.triples_frame. cbn [mbind result_bind Py.bind].
  rewrite select_all_blank_nulls.
  destruct (Sqlite.select_all d "triples") as [rows|e];
    cbn [mbind result_bind Py.bind]; [|unfold Nulls.alike; reflexivity].
  pose proof (Triple_positional_blank rows) as H.
  destruct (Sqlite.all_ok _) as [ts1|e1], (Sqlite.all_ok _) as [ts2|e2];
    try contradiction; unfold Nulls.alike; cbn [mbind result_bind Py.bind];
    [|exact H].
  destruct H as [H1 H2]. rewrite !DataFrame_from_triples_astuple.
  destruct ts1 as [|t1 ts1], ts2 as [|t2 ts2].
  - reflexivity.
  - destruct rows; discriminate.
  - destruct rows; discriminate.
  - rewrite H1, H2, render_blank_rows. reflexivity.
Qed.

(** When two frames are written alike, the exports that build them
    have the same outcome and leave the same bytes. *)
Lemma export_via_alike
    (frame : Py.result Sqlite.db -> Py.result Pandas.DataFrame)
    (w1 w2 : World.t) (db_path output_path : string) :
  Nulls.alike (frame (World.load (World.connect w1 db_path) db_path))
    (frame (World.load (World.connect w2 db_path) db_path)) ->
  Spec.same_bytes (Spec.export_via frame) w1 w2 db_path output_path.
Proof.
  unfold Spec.same_bytes, Spec.export_via, Nulls.alike.
  destruct (frame _) as [df1|e1], (frame _) as [df2|e2]; simpl;
    try contradiction.
  - intros ->. split; [reflexivity|]. intros _.
    unfold World.write_text. now rewrite !lookup_insert_eq.
  - intros ->. split; [reflexivity|discriminate].
Qed.

Lemma load_database (w : World.t) (db_path : string) (d : Sqlite.db) :
  w !! db_path = Some (World.Database d) ->
  World.load (World.connect w db_path) db_path = Py.Ok d.
Proof.
  intros H. unfold World.connect, World.load. now rewrite !H.
Qed.

(** A NULL and an empty text are exported alike: a store and the same
    store with every NULL replaced by the empty text give the same
    outcome and the same bytes, in each of the three exports. *)
Theorem csv_export_null_as_empty_text
    (OBSERVATION_FIELD_NAMES : list string) (w1 w2 : World.t)
    (db_path output_path : string) (d : Sqlite.db) :
  w1 !! db_path = Some (World.Database (Nulls.blank_nulls d)) ->
  w2 !! db_path = Some (World.Database d) ->
  Spec.same_bytes (DbHarness.write_observations OBSERVATION_FIELD_NAMES)
    w1 w2 db_path output_path
  /\ Spec.same_bytes DbHarness.write_triples w1 w2 db_path output_path
  /\ Spec.same_bytes DbHarness.write_key_values w1 w2 db_path output_path.
Proof.
  intros H1 H2. split; [|split]; unfold Spec.same_bytes.
  - rewrite !write_observations_via. apply export_via_alike.
    rewrite (load_database _ _ _ H1), (load_database _ _ _ H2).
    apply observations_frame_blank.
  - rewrite !write_triples_via. apply export_via_alike.
    rewrite (load_database _ _ _ H1), (load_database _ _ _ H2).
    apply triples_frame_blank.
  - rewrite !write_key_values_via. apply export_via_alike.
    rewrite (load_database _ _ _ H1), (load_database _ _ _ H2).
    apply key_values_frame_blank.
Qed.

Lemma csv_export_null_as_empty_text_example :
  let w1 : World.t := <["stats.db" := World.Database (Nulls.blank_nulls Nulls.sample)]> ∅ in
  let w2 : World.t := <["stats.db" := World.Database Nulls.sample]> ∅ in
  Spec.same_bytes (DbHarness.write_observations Sample.field_names)
    w1 w2 "stats.db" "out.csv"
  /\ Spec.same_bytes DbHarness.write_triples w1 w2 "stats.db" "out.csv"
  /\ Spec.same_bytes DbHarness.write_key_values w1 w2 "stats.db" "out.csv".
Proof.
  cbv zeta.
  apply (csv_export_null_as_empty_text Sample.field_names
           (<["stats.db" := World.Database (Nulls.blank_nulls Nulls.sample)]> ∅)
           (<["stats.db" := World.Database Nulls.sample]> ∅)
           "stats.db" "out.csv" Nulls.sample).
  - vm_compute. reflexivity.
  - vm_compute. reflexivity.
Defined.

(** ** A restore that fails *)









Lemma read_text_connect (w : World.t) (db_path path : string) :
  db_path <> path ->
  World.read_text (World.connect w db_path) path = World.read_text w path.
Proof.
  intros H. unfold World.read_text. now rewrite connect_other.
Qed.







(** A restore from a script that does not exist raises, and the
    connection has already created the database file when it was
    missing: an empty database is left behind.  The two names are files
    in the working directory. *)
Theorem restore_missing_script (w : World.t) (db_path input_path : string) :
  w !! input_path = None ->
  w !! db_path = None ->
  World.file_name db_path = true ->
  World.file_name input_path = true ->
  db_path <> input_path ->
  DbHarness.read_full_db_from_file w db_path input_path
  = (Py.Raise (Py.FileNotFoundError input_path), <[db_path := World.TextFile ""]> w).
Proof.
  intros Hin Hdb _ _ Hne. unfold DbHarness.read_full_db_from_file.
  rewrite (read_text_connect w db_path input_path Hne).
  unfold World.read_text, World.connect. now rewrite Hin, Hdb.
Qed.

Lemma restore_missing_script_example :
  DbHarness.read_full_db_from_file ∅ "stats.db" "dump.sql"
  = (Py.Raise (Py.FileNotFoundError "dump.sql"), <["stats.db" := World.TextFile ""]> ∅).
Proof.
  apply (restore_missing_script ∅ "stats.db" "dump.sql").
  - reflexivity.
  - reflexivity.
  - reflexivity.
  - reflexivity.
  - discriminate.
Defined.

(** ** The order of the tables in a dump *)












(** ** A file of a header line *)


